(** * SolSafe devnet initialisation script: a shallow embedding

    The development follows [initialize_devnet.py]: three module-level
    configuration values, [run_cmd] (a guarded call of [subprocess.run]) and
    [main], which prints a banner, asks the wallet CLI for an address and
    prints a fixed runbook.

    The script has two effects, writing to standard output and spawning
    child processes, and one internal control effect, Python exceptions.
    They are modelled with ExtLib's [eitherT] over [state]: the state is the
    observable world, the exception layer sits on top of it so that a raised
    exception keeps what was already written and spawned.

    [main] is first run on a standard output that takes whatever is
    written, from the world the loaded module leaves. The whole module on a
    host that can refuse (an import that fails, a write that raises, a
    flush that fails at exit) comes after it, with the lemma that ties the
    two: on any console [main] goes as it does when nothing is refused,
    until a write is refused. *)

From Stdlib Require Import String Ascii List NArith ZArith Bool Lia DecimalString.
From ExtLib Require Import Structures.Monad Structures.MonadState Structures.MonadExc.
From ExtLib Require Import Data.Monads.StateMonad Data.Monads.EitherMonad.
Import ListNotations.
Import MonadNotation.
Local Open Scope monad_scope.
Local Open Scope list_scope.

(** ** Python text *)

Module PyStr.

(** A Python [str] is a sequence of Unicode code points. *)
Abbreviation char := N.
Abbreviation str := (list N).

Definition bytes_of_string (s : string) : list N :=
  map N_of_ascii (list_ascii_of_string s).

Definition cont (b : N) : N := N.land b 63.

(** Source literals are written in this file as they are in the script,
    in UTF-8; [utf8_decode] turns their bytes into code points. *)
Fixpoint utf8_decode (bs : list N) : str :=
  match bs with
  | [] => []
  | b0 :: r0 =>
    if (b0 <? 128)%N then b0 :: utf8_decode r0
    else if (b0 <? 224)%N then
      match r0 with
      | b1 :: r1 => (N.shiftl (N.land b0 31) 6 + cont b1)%N :: utf8_decode r1
      | [] => [b0]
      end
    else if (b0 <? 240)%N then
      match r0 with
      | b1 :: b2 :: r2 =>
        (N.shiftl (N.land b0 15) 12 + N.shiftl (cont b1) 6 + cont b2)%N
          :: utf8_decode r2
      | _ => [b0]
      end
    else
      match r0 with
      | b1 :: b2 :: b3 :: r3 =>
        (N.shiftl (N.land b0 7) 18 + N.shiftl (cont b1) 12
         + N.shiftl (cont b2) 6 + cont b3)%N :: utf8_decode r3
      | _ => [b0]
      end
  end.

Definition lit (s : string) : str := utf8_decode (bytes_of_string s).

(** The escape [\n] of a Python literal. *)
Definition nl : str := [10%N].

(** [Py_UNICODE_ISSPACE]: the characters [str.strip()] removes. *)
Definition isspace (c : char) : bool :=
  ((9 <=? c) && (c <=? 13) || (28 <=? c) && (c <=? 32)
   || (c =? 133) || (c =? 160) || (c =? 5760)
   || (8192 <=? c) && (c <=? 8202)
   || (c =? 8232) || (c =? 8233) || (c =? 8239) || (c =? 8287)
   || (c =? 12288))%N.

Fixpoint lstrip (s : str) : str :=
  match s with
  | [] => []
  | c :: r => if isspace c then lstrip r else s
  end.

Definition rstrip (s : str) : str := rev (lstrip (rev s)).

(** [s.strip()]: the leading run of whitespace is skipped, then the
    trailing one. *)
Definition strip (s : str) : str := rstrip (lstrip s).

(** [str(i)] and the f-string field [{i}] of an [int]: decimal digits. *)
Definition str_of_int (i : Z) : str :=
  bytes_of_string (NilZero.string_of_int (Z.to_int i)).

(** [enumerate(l, start)]. *)
Fixpoint enumerate {A} (l : list A) (start : Z) : list (Z * A) :=
  match l with
  | [] => []
  | x :: r => (start, x) :: enumerate r (start + 1)
  end.

Definition eqb (a b : str) : bool :=
  if list_eq_dec N.eq_dec a b then true else false.

End PyStr.

Import PyStr.

(** ** [json.dumps] on a list of strings *)

Module Json.

Definition hex_digit (d : N) : char :=
  if (d <? 10)%N then (48 + d)%N else (87 + d)%N.

(** [\uXXXX] with four lower-case hex digits. *)
Definition u_escape (n : N) : str :=
  [92; 117]%N ++
  [hex_digit (N.land (N.shiftr n 12) 15); hex_digit (N.land (N.shiftr n 8) 15);
   hex_digit (N.land (N.shiftr n 4) 15); hex_digit (N.land n 15)].

(** One character of [py_encode_basestring_ascii]: the quote, the
    backslash and everything outside [' '..'~'] are escaped; a code point
    beyond the BMP becomes a surrogate pair. *)
Definition encode_char (c : char) : str :=
  if (c =? 34)%N then [92; 34]%N
  else if (c =? 92)%N then [92; 92]%N
  else if (c =? 10)%N then [92; 110]%N
  else if (c =? 13)%N then [92; 114]%N
  else if (c =? 9)%N then [92; 116]%N
  else if (c =? 12)%N then [92; 102]%N
  else if (c =? 8)%N then [92; 98]%N
  else if ((32 <=? c) && (c <=? 126))%N then [c]
  else if (c <? 65536)%N then u_escape c
  else
    let v := (c - 65536)%N in
    u_escape (N.lor 55296 (N.land (N.shiftr v 10) 1023))
    ++ u_escape (N.lor 56320 (N.land v 1023)).

Definition encode_basestring_ascii (s : str) : str :=
  [34%N] ++ flat_map encode_char s ++ [34%N].

Fixpoint join (sep : str) (l : list str) : str :=
  match l with
  | [] => []
  | [x] => x
  | x :: r => x ++ sep ++ join sep r
  end.

(** [json.dumps(l, indent=n)] for a list [l] of [str]: the empty list is
    [[]]; otherwise every item is on a line of its own, indented by [n]
    spaces, items are separated by a comma, and the closing bracket is on
    a line of its own at column 0. *)
Definition dumps (l : list str) (indent : nat) : str :=
  match l with
  | [] => lit "[]"
  | _ =>
    let newline_indent := nl ++ repeat 32%N indent in
    lit "[" ++ newline_indent
    ++ join (lit "," ++ newline_indent) (map encode_basestring_ascii l)
    ++ nl ++ lit "]"
  end.

End Json.

(** ** Reading JSON text back

    The round trip of the validator list is stated against this reader of
    JSON text (RFC 8259) for arrays of strings: insignificant whitespace,
    the two-character escapes, [\uXXXX] escapes and surrogate pairs. It is
    not part of the script. *)

Module JsonReader.

Definition is_ws (c : char) : bool :=
  ((c =? 32) || (c =? 9) || (c =? 10) || (c =? 13))%N.

Fixpoint skip_ws (s : str) : str :=
  match s with
  | [] => []
  | c :: r => if is_ws c then skip_ws r else s
  end.

Definition hex_value (c : char) : option N :=
  if ((48 <=? c) && (c <=? 57))%N then Some (c - 48)%N
  else if ((97 <=? c) && (c <=? 102))%N then Some (c - 87)%N
  else if ((65 <=? c) && (c <=? 70))%N then Some (c - 55)%N
  else None.

Definition hex4 (s : str) : option (N * str) :=
  match s with
  | a :: b :: c :: d :: r =>
    match hex_value a, hex_value b, hex_value c, hex_value d with
    | Some x, Some y, Some z, Some t =>
      Some (x * 4096 + y * 256 + z * 16 + t, r)%N
    | _, _, _, _ => None
    end
  | _ => None
  end.

Definition unescape (e : char) : option char :=
  if (e =? 34)%N then Some 34%N
  else if (e =? 92)%N then Some 92%N
  else if (e =? 47)%N then Some 47%N
  else if (e =? 98)%N then Some 8%N
  else if (e =? 102)%N then Some 12%N
  else if (e =? 110)%N then Some 10%N
  else if (e =? 114)%N then Some 13%N
  else if (e =? 116)%N then Some 9%N
  else None.

Definition is_high (n : N) : bool := ((55296 <=? n) && (n <? 56320))%N.
Definition is_low (n : N) : bool := ((56320 <=? n) && (n <? 57344))%N.

Definition push (c : char) (r : option (str * str)) : option (str * str) :=
  match r with
  | Some (x, rest) => Some (c :: x, rest)
  | None => None
  end.

(** The characters of a string after its opening quote, up to and
    including the closing quote; the rest of the input is returned. *)
Fixpoint string_body (fuel : nat) (s : str) : option (str * str) :=
  match fuel with
  | O => None
  | S f =>
    match s with
    | [] => None
    | c :: r =>
      if (c =? 34)%N then Some ([], r)
      else if (c =? 92)%N then
        match r with
        | [] => None
        | e :: r1 =>
          if (e =? 117)%N then
            match hex4 r1 with
            | None => None
            | Some (hi, r2) =>
              match r2 with
              | 92%N :: 117%N :: r3 =>
                match hex4 r3 with
                | Some (lo, r4) =>
                  if is_high hi && is_low lo
                  then push (65536 + (hi - 55296) * 1024 + (lo - 56320))%N
                            (string_body f r4)
                  else push hi (string_body f r2)
                | None => push hi (string_body f r2)
                end
              | _ => push hi (string_body f r2)
              end
            end
          else
            match unescape e with
            | Some u => push u (string_body f r1)
            | None => None
            end
        end
      else if (c <? 32)%N then None
      else push c (string_body f r)
    end
  end.

Definition string_token (s : str) : option (str * str) :=
  match s with
  | 34%N :: r => string_body (length r) r
  | _ => None
  end.

(** The items of a non-empty array, from the first character of an item
    up to and including the closing bracket. *)
Fixpoint items (fuel : nat) (s : str) : option (list str * str) :=
  match fuel with
  | O => None
  | S f =>
    match string_token s with
    | None => None
    | Some (x, r) =>
      match skip_ws r with
      | 44%N :: r1 =>
        match items f (skip_ws r1) with
        | Some (xs, r2) => Some (x :: xs, r2)
        | None => None
        end
      | 93%N :: r1 => Some ([x], r1)
      | _ => None
      end
    end
  end.

(** The whole text must be one array of strings. *)
Definition loads (s : str) : option (list str) :=
  match skip_ws s with
  | 91%N :: r =>
    match skip_ws r with
    | 93%N :: r1 =>
      match skip_ws r1 with [] => Some [] | _ => None end
    | r0 =>
      match items (length r0) r0 with
      | Some (xs, r1) =>
        match skip_ws r1 with [] => Some xs | _ => None end
      | None => None
      end
    end
  | _ => None
  end.

End JsonReader.

(** ** Plain strings *)

(** Characters that [json.dumps] writes as they are. *)
Definition plain_char (c : char) : bool :=
  ((32 <=? c) && (c <=? 126) && negb (c =? 34) && negb (c =? 92))%N.

(** Strings of such characters, as the base-58 identifiers are. *)
Definition plain (s : str) : Prop := forallb plain_char s = true.

(** ** The world and the monad of the script *)

(** The module-level names the functions look up when they run. *)
Record globals := mkGlobals {
  g_PROGRAM_ID : str;
  g_RPC_ENDPOINT : str;
  g_VALIDATORS : list str
}.

(** What a run can be observed to do: the arguments of the [print] calls in
    order, and the commands handed to [subprocess.run] in order. *)
Record world := mkWorld {
  w_globals : globals;
  w_stdout : list str;
  w_spawned : list str
}.

(** An instance of [Exception]; [exc_str e] is [str(e)]. The asynchronous
    [KeyboardInterrupt] is not an [Exception] and is outside this model. *)
Record py_exc := mkExc { exc_str : str }.

(** [subprocess.CompletedProcess]. *)
Record CompletedProcess := mkCompleted {
  returncode : Z;
  stdout : str;
  stderr : str
}.

(** How a call of [subprocess.run] ends: the child ran to completion, or the
    call raised (the shell could not be started, the output could not be
    decoded, ...). *)
Inductive outcome :=
| Completed (p : CompletedProcess)
| Raised (e : py_exc).

(** The operating system as the script sees it: the outcome of the [n]-th
    call of [subprocess.run] (counting from 0) for a given command line. *)
Definition system := nat -> str -> outcome.

Definition py := eitherT py_exc (state world).

Definition run {A} (m : py A) (w : world) : (py_exc + A) * world :=
  runState (unEitherT m) w.

(** [print(s)] on a standard output that takes the text: the item is
    appended. A write that raises is [print_to], further down. *)
Definition print (s : str) : py unit :=
  w <- get ;;
  put (mkWorld (w_globals w) (w_stdout w ++ [s]) (w_spawned w)).

(** Reading a module-level name. *)
Definition global {A} (f : globals -> A) : py A :=
  w <- get ;; ret (f (w_globals w)).

(** [for x in l: body(x)]. *)
Fixpoint for_each {A} (l : list A) (body : A -> py unit) : py unit :=
  match l with
  | [] => ret tt
  | x :: r => body x ;; for_each r body
  end.

(** ** The script *)

Definition PROGRAM_ID : str := lit "FfV3AHU6WS7aPz53DnVvWBMEZR46ydGkEtKpLiKfRTrR".
Definition RPC_ENDPOINT : str := lit "https://api.devnet.solana.com".

Definition VALIDATORS : list str :=
  [ lit "9mtqPQnWcdUJjVHqYaWGHwwFswHLAEaMkMoLMsctAfms";
    lit "3ogts3UmEwRBdGNScChzKpcreuPPNBC45TM148fCTEdM";
    lit "Eaph3z9pGPH9yUkDQdUZiG4ejEwMrUXxLsP7wGehBasy";
    lit "GseuivbeqFdgQnZuis1eYUjAE2bmZtA695uKxtuojdWD";
    lit "CbQDdW66fhxGBAxyuR1gHmvtGfvBcpMosaNWo8XNyJ5M" ].

Definition module_globals : globals :=
  mkGlobals PROGRAM_ID RPC_ENDPOINT VALIDATORS.

(** The world when the module has been loaded (its imports done, its three
    names bound) and nothing has run yet. *)
Definition initial_world : world := mkWorld module_globals [] [].

Section Script.

Variable os : system.

(** [subprocess.run(cmd, shell=True, capture_output=True, text=True,
    check=False)]: with [check=False] a non-zero exit status is not an
    error. *)
Definition subprocess_run (cmd : str) : py CompletedProcess :=
  w <- get ;;
  put (mkWorld (w_globals w) (w_stdout w) (w_spawned w ++ [cmd])) ;;
  match os (length (w_spawned w)) cmd with
  | Completed p => ret p
  | Raised e => raise e
  end.

Definition run_cmd (cmd : str) : py (Z * str * str) :=
  catch
    (result <- subprocess_run cmd ;;
     ret (returncode result, stdout result, stderr result))
    (fun e => ret (1%Z, [], exc_str e)).

Definition main : py unit :=
  print (lit "🚀 SolSafe Devnet Initialization") ;;
  PROGRAM_ID <- global g_PROGRAM_ID ;;
  print (lit "Program ID: " ++ PROGRAM_ID) ;;
  RPC_ENDPOINT <- global g_RPC_ENDPOINT ;;
  print (lit "RPC: " ++ RPC_ENDPOINT ++ nl) ;;
  '(rc, out, err) <- run_cmd (lit "solana address") ;;
  if negb (rc =? 0)%Z then
    print (lit "❌ Failed to get wallet: " ++ err)
  else
    let wallet := strip out in
    print (lit "✅ Wallet: " ++ wallet ++ nl) ;;
    '(rc, out, err) <- run_cmd
      (lit "solana-keygen grind-validator --starts-with global:1 --starts-with global") ;;
    print (lit "📋 Validator List:") ;;
    VALIDATORS <- global g_VALIDATORS ;;
    for_each (enumerate VALIDATORS 1)
      (fun '(i, v) => print (lit "  " ++ str_of_int i ++ lit ". " ++ v)) ;;
    print (nl ++ lit "⏳ Next Steps:") ;;
    print (lit "1. Use Solana Playground to call initialize instruction") ;;
    print (lit "   - Quorum: 5 validators") ;;
    print (lit "   - Min jurors: 2 (2/3 of 5 = 3.33 → 4 required)") ;;
    print (nl ++ lit "2. Call sync_validators with the validator list above") ;;
    print (nl ++ lit "3. Submit a test case and vote with validators") ;;
    print (nl ++ lit "📝 Validator list JSON:") ;;
    VALIDATORS <- global g_VALIDATORS ;;
    print (Json.dumps VALIDATORS 2).

End Script.

(** The text on standard output: [print] ends each argument with a newline. *)
Definition stdout_text (w : world) : str :=
  flat_map (fun s => s ++ nl) (w_stdout w).

Definition printed (w : world) (l : list str) : world :=
  mkWorld (w_globals w) (w_stdout w ++ l) (w_spawned w).

Definition spawn (w : world) (l : list str) : world :=
  mkWorld (w_globals w) (w_stdout w) (w_spawned w ++ l).

(** What [run_cmd] hands back for each way [subprocess.run] can end. *)
Definition triple_of (o : outcome) : Z * str * str :=
  match o with
  | Completed p => (returncode p, stdout p, stderr p)
  | Raised e => (1%Z, [], exc_str e)
  end.

(** ** What a run of [main] prints *)

Definition solana_address : str := lit "solana address".

Definition keygen_cmd : str :=
  lit "solana-keygen grind-validator --starts-with global:1 --starts-with global".

Definition banner_of (g : globals) : list str :=
  [ lit "🚀 SolSafe Devnet Initialization";
    lit "Program ID: " ++ g_PROGRAM_ID g;
    lit "RPC: " ++ g_RPC_ENDPOINT g ++ nl ].

Definition error_line (err : str) : str := lit "❌ Failed to get wallet: " ++ err.

Definition wallet_line (wallet : str) : str := lit "✅ Wallet: " ++ wallet ++ nl.

Definition entry_line (iv : Z * str) : str :=
  lit "  " ++ str_of_int (fst iv) ++ lit ". " ++ snd iv.

Definition next_steps : list str :=
  [ nl ++ lit "⏳ Next Steps:";
    lit "1. Use Solana Playground to call initialize instruction";
    lit "   - Quorum: 5 validators";
    lit "   - Min jurors: 2 (2/3 of 5 = 3.33 → 4 required)";
    nl ++ lit "2. Call sync_validators with the validator list above";
    nl ++ lit "3. Submit a test case and vote with validators" ].

Definition runbook_of (g : globals) : list str :=
  lit "📋 Validator List:" :: map entry_line (enumerate (g_VALIDATORS g) 1)
  ++ next_steps
  ++ [ nl ++ lit "📝 Validator list JSON:"; Json.dumps (g_VALIDATORS g) 2 ].

(** ** Runs of the script *)

(** What the wallet-CLI call hands back to [main]: [run_cmd] looks at the
    world only for the number of commands spawned before, so the banner
    printed in between makes no difference ([wallet_call_in_main]). *)
Definition wallet_call (os : system) : py_exc + Z * str * str :=
  fst (run (run_cmd os solana_address) initial_world).

(** How [main] ends, what it has printed and what it has spawned. *)
Definition result (os : system) : py_exc + unit :=
  fst (run (main os) initial_world).

Definition output (os : system) : list str :=
  w_stdout (snd (run (main os) initial_world)).

Definition spawned (os : system) : list str :=
  w_spawned (snd (run (main os) initial_world)).

(** ** The expected text *)

Definition dq : str := [34%N].

Definition banner : list str :=
  [ lit "🚀 SolSafe Devnet Initialization";
    lit "Program ID: FfV3AHU6WS7aPz53DnVvWBMEZR46ydGkEtKpLiKfRTrR";
    lit "RPC: https://api.devnet.solana.com" ++ nl ].

Definition validator_header : str := lit "📋 Validator List:".

Definition validator_entries : list str :=
  [ lit "  1. 9mtqPQnWcdUJjVHqYaWGHwwFswHLAEaMkMoLMsctAfms";
    lit "  2. 3ogts3UmEwRBdGNScChzKpcreuPPNBC45TM148fCTEdM";
    lit "  3. Eaph3z9pGPH9yUkDQdUZiG4ejEwMrUXxLsP7wGehBasy";
    lit "  4. GseuivbeqFdgQnZuis1eYUjAE2bmZtA695uKxtuojdWD";
    lit "  5. CbQDdW66fhxGBAxyuR1gHmvtGfvBcpMosaNWo8XNyJ5M" ].

Definition json_header : str := nl ++ lit "📝 Validator list JSON:".

(** The JSON block, line by line. *)
Definition json_lines : list str :=
  [ lit "[";
    lit "  " ++ dq ++ lit "9mtqPQnWcdUJjVHqYaWGHwwFswHLAEaMkMoLMsctAfms" ++ dq ++ lit ",";
    lit "  " ++ dq ++ lit "3ogts3UmEwRBdGNScChzKpcreuPPNBC45TM148fCTEdM" ++ dq ++ lit ",";
    lit "  " ++ dq ++ lit "Eaph3z9pGPH9yUkDQdUZiG4ejEwMrUXxLsP7wGehBasy" ++ dq ++ lit ",";
    lit "  " ++ dq ++ lit "GseuivbeqFdgQnZuis1eYUjAE2bmZtA695uKxtuojdWD" ++ dq ++ lit ",";
    lit "  " ++ dq ++ lit "CbQDdW66fhxGBAxyuR1gHmvtGfvBcpMosaNWo8XNyJ5M" ++ dq;
    lit "]" ].

Definition json_text : str := Json.join nl json_lines.

Definition runbook : list str :=
  validator_header :: validator_entries ++ next_steps ++ [json_header; json_text].

(** ** Whitespace at the ends of a string *)

Definition all_space (s : str) : Prop := forallb isspace s = true.

(** The first character, if there is one, is not whitespace. *)
Definition clean_start (s : str) : Prop :=
  match s with
  | [] => True
  | c :: _ => isspace c = false
  end.

Definition clean_edges (s : str) : Prop := clean_start s /\ clean_start (rev s).

(** ** Computations that only read the configuration *)

(** A computation keeps the module-level names as they were. *)
Definition keeps_globals {A} (m : py A) : Prop :=
  forall w, w_globals (snd (run m w)) = w_globals w.

(** ** Sample systems *)

(** The wallet CLI answers with an address; the key-derivation call exits
    with status 1. *)
Definition scenario_a : system := fun n _ =>
  match n with
  | O => Completed (mkCompleted 0 (lit "7xKXtg2CW...devnetWallet" ++ nl) [])
  | _ => Completed (mkCompleted 1 [] (lit "error: unrecognized subcommand"))
  end.

(** As [scenario_a], but the key-derivation call cannot even be started. *)
Definition scenario_a_spawn_error : system := fun n _ =>
  match n with
  | O => Completed (mkCompleted 0 (lit "7xKXtg2CW...devnetWallet" ++ nl) [])
  | _ => Raised (mkExc (lit "[Errno 12] Cannot allocate memory"))
  end.

(** The wallet CLI exits with status 1. *)
Definition scenario_b : system := fun _ _ =>
  Completed (mkCompleted 1 [] (lit "command not found")).

(** No child process can be created. *)
Definition scenario_c : system := fun _ _ =>
  Raised (mkExc (lit "[Errno 11] Resource temporarily unavailable")).



(** ** Further sample systems and worlds *)

(** As [scenario_c], but the failure is a child that exits with status 1,
    prints nothing and writes the same text to stderr. *)
Definition scenario_c_as_exit : system := fun _ _ =>
  Completed (mkCompleted 1 [] (lit "[Errno 11] Resource temporarily unavailable")).

(** A world with another configuration, earlier output and an earlier
    spawn: three validators, one of them not plain. *)
Definition other_world : world :=
  mkWorld (mkGlobals (lit "Prog") (lit "http://localhost:8899")
                     [lit "alpha"; lit "bêta"; lit "gamma"])
          [lit "earlier output"] [lit "true"].

(** The system seen from [other_world]: the wallet CLI answers the second
    call of the process. *)
Definition scenario_later : system := fun n _ =>
  match n with
  | 1%nat => Completed (mkCompleted 0 (lit " W1 ") [])
  | _ => Completed (mkCompleted 2 [] [])
  end.

(** The wallet CLI pads its answer differently and warns on stderr. *)
Definition scenario_a_padded : system := fun n _ =>
  match n with
  | O => Completed (mkCompleted 0 (lit "  7xKXtg2CW...devnetWallet ")
                                (lit "warning: config not found"))
  | _ => Completed (mkCompleted 1 [] (lit "error: unrecognized subcommand"))
  end.

(** The wallet CLI is killed by a signal after writing a partial answer. *)
Definition scenario_b_killed : system := fun _ _ =>
  Completed (mkCompleted (-9) (lit "7xKX") (lit "command not found")).

(** ** Well-formed text *)

(** A Unicode scalar value: a code point that is not a surrogate. *)
Definition scalar (c : char) : bool :=
  ((c <? 1114112) && negb ((55296 <=? c) && (c <? 57344)))%N.

Definition well_formed (s : str) : Prop := forallb scalar s = true.

(** A printable ASCII character. *)
Definition printable (c : char) : bool := ((32 <=? c) && (c <=? 126))%N.

(** What JSON text written with [ensure_ascii] is made of. *)
Definition json_char (c : char) : bool := (c =? 10)%N || printable c.

(** ** The script on a host

    Above, [print] always appends its item: that is the script on a
    standard output that takes whatever is written, after the module has
    been loaded. What follows is the whole module, top to bottom, on a host
    that can refuse: an import can fail, a write to standard output can
    raise, and the text can fail to be flushed when the interpreter exits. *)

(** Standard output as the script meets it: the [k]-th item written
    (counting from 0) is taken, or the write raises: [UnicodeEncodeError]
    when the encoding of [sys.stdout] cannot express the text, [OSError]
    when the device refuses it. *)
Definition console := nat -> str -> option py_exc.

(** [print(s)] on a console: nothing of [s] is written when the write
    raises, and what was written before stays. *)
Definition print_to (con : console) (s : str) : py unit :=
  w <- get ;;
  match con (length (w_stdout w)) s with
  | None => put (mkWorld (w_globals w) (w_stdout w ++ [s]) (w_spawned w))
  | Some e => raise e
  end.

Section Body.

Variable os : system.

(** The builtin the name [print] stands for when [main] runs. *)
Variable print : str -> py unit.

(** The body of [main], over what [print] does. *)
Definition main_with : py unit :=
  print (lit "🚀 SolSafe Devnet Initialization") ;;
  PROGRAM_ID <- global g_PROGRAM_ID ;;
  print (lit "Program ID: " ++ PROGRAM_ID) ;;
  RPC_ENDPOINT <- global g_RPC_ENDPOINT ;;
  print (lit "RPC: " ++ RPC_ENDPOINT ++ nl) ;;
  '(rc, out, err) <- run_cmd os (lit "solana address") ;;
  if negb (rc =? 0)%Z then
    print (lit "❌ Failed to get wallet: " ++ err)
  else
    let wallet := strip out in
    print (lit "✅ Wallet: " ++ wallet ++ nl) ;;
    '(rc, out, err) <- run_cmd os
      (lit "solana-keygen grind-validator --starts-with global:1 --starts-with global") ;;
    print (lit "📋 Validator List:") ;;
    VALIDATORS <- global g_VALIDATORS ;;
    for_each (enumerate VALIDATORS 1)
      (fun '(i, v) => print (lit "  " ++ str_of_int i ++ lit ". " ++ v)) ;;
    print (nl ++ lit "⏳ Next Steps:") ;;
    print (lit "1. Use Solana Playground to call initialize instruction") ;;
    print (lit "   - Quorum: 5 validators") ;;
    print (lit "   - Min jurors: 2 (2/3 of 5 = 3.33 → 4 required)") ;;
    print (nl ++ lit "2. Call sync_validators with the validator list above") ;;
    print (nl ++ lit "3. Submit a test case and vote with validators") ;;
    print (nl ++ lit "📝 Validator list JSON:") ;;
    VALIDATORS <- global g_VALIDATORS ;;
    print (Json.dumps VALIDATORS 2).

End Body.

(** What the script needs from where it runs. *)
Record host := mkHost {
  (** [None] when the module of that name can be imported, the
      [ImportError] otherwise *)
  h_import : str -> option py_exc;
  h_stdout : console;
  (** whether the items written can be flushed when the interpreter exits *)
  h_flush : list str -> bool;
  h_os : system
}.

(** [import m] and [from m import x]. *)
Definition import_module (h : host) (name : str) : py unit :=
  match h_import h name with
  | None => ret tt
  | Some e => raise e
  end.

(** The modules the script imports, in the order of its first lines. *)
Definition imported_modules : list str :=
  [ lit "subprocess"; lit "json"; lit "solders.pubkey";
    lit "solders.system_program"; lit "solders.rpc.responses";
    lit "solana.rpc.api" ].

(** A module-level assignment. *)
Definition assign (f : globals -> globals) : py unit :=
  w <- get ;; put (mkWorld (f (w_globals w)) (w_stdout w) (w_spawned w)).

(** The module's last statement: [if __name__ == "__main__": main()]. *)
Definition module_tail (name : str) (main : py unit) : py unit :=
  if PyStr.eqb name (lit "__main__") then main else ret tt.

(** The module from its first line to its last, run as a script. *)
Definition script (h : host) : py unit :=
  import_module h (lit "subprocess") ;;
  import_module h (lit "json") ;;
  import_module h (lit "solders.pubkey") ;;
  import_module h (lit "solders.system_program") ;;
  import_module h (lit "solders.rpc.responses") ;;
  import_module h (lit "solana.rpc.api") ;;
  assign (fun g => mkGlobals PROGRAM_ID (g_RPC_ENDPOINT g) (g_VALIDATORS g)) ;;
  assign (fun g => mkGlobals (g_PROGRAM_ID g) RPC_ENDPOINT (g_VALIDATORS g)) ;;
  assign (fun g => mkGlobals (g_PROGRAM_ID g) (g_RPC_ENDPOINT g) VALIDATORS) ;;
  module_tail (lit "__main__") (main_with (h_os h) (print_to (h_stdout h))).

(** The world before the first line of the module has run: nothing is
    bound yet (the three names hold the empty value until assigned, and
    nothing reads them before). *)
Definition unloaded_world : world := mkWorld (mkGlobals [] [] []) [] [].

(** The exit status of the interpreter: 120 when standard output cannot be
    flushed at exit; otherwise 1 when an exception reached the top level
    and 0 when the module body ran to its end. *)
Definition exit_status (h : host) (r : (py_exc + unit) * world) : Z :=
  if negb (h_flush h (w_stdout (snd r))) then 120
  else match fst r with
       | inr _ => 0
       | inl _ => 1
       end.

(** A run of the script on a host, and its exit status. *)
Definition run_script (h : host) : (py_exc + unit) * world :=
  run (script h) unloaded_world.

(** A stdout whose encoding expresses the characters [enc] accepts. *)
Definition codec_console (enc : char -> bool) : console := fun _ s =>
  if forallb enc s then None else Some (mkExc (lit "UnicodeEncodeError")).

(** [PYTHONIOENCODING=ascii], or the C locale. *)
Definition ascii_console : console := codec_console (fun c => (c <? 128)%N).

(** UTF-8 with the [strict] handler: everything but surrogates. *)
Definition utf8_console : console := codec_console scalar.

(** A host on which everything is installed and stdout is UTF-8. *)
Definition utf8_host (os : system) : host :=
  mkHost (fun _ => None) utf8_console (fun _ => true) os.

(** The same host with an ASCII stdout. *)
Definition ascii_host (os : system) : host :=
  mkHost (fun _ => None) ascii_console (fun _ => true) os.

(** A host without the [solders] package. *)
Definition host_without_solders (os : system) : host :=
  mkHost (fun m => if PyStr.eqb (firstn 8 m) (lit "solders.")
                   then Some (mkExc (lit "No module named 'solders'"))
                   else None)
         utf8_console (fun _ => true) os.

(** A host whose stdout is a full device: writes are buffered and the
    flush at exit fails when there is something to flush. *)
Definition full_disk_host (os : system) : host :=
  mkHost (fun _ => None) utf8_console
         (fun items => match items with [] => true | _ => false end) os.

(** *** How a run on a console relates to the run in which nothing is refused *)

(** The second world continues the first: same configuration, more
    printed, more spawned. *)
Definition grows (w w' : world) : Prop :=
  w_globals w' = w_globals w
  /\ (exists l, w_stdout w' = w_stdout w ++ l)
  /\ (exists c, w_spawned w' = w_spawned w ++ c).

Definition growing {A} (m : py A) : Prop :=
  forall w, grows w (snd (run m w)).

(** The first world is where a run stopped with [e]: the second one
    continues it, and the next item it prints is the one the console
    refused with [e]. *)
Definition stopped_at (con : console) (e : py_exc) (w w' : world) : Prop :=
  w_globals w' = w_globals w
  /\ (exists s rest,
        w_stdout w' = w_stdout w ++ s :: rest
        /\ con (length (w_stdout w)) s = Some e)
  /\ (exists c, w_spawned w' = w_spawned w ++ c).

(** [m1], on the console, goes as [m2] does until a write is refused. *)
Definition follows (con : console) {A} (m1 m2 : py A) : Prop :=
  forall w,
    match run m1 w with
    | (inr a, w1) => run m2 w = (inr a, w1)
    | (inl e, w1) => stopped_at con e w1 (snd (run m2 w))
    end.

(** [l] is an initial segment of [l']. *)
Definition initial_segment {A} (l l' : list A) : Prop := exists r, l' = l ++ r.

(** A configuration whose second validator holds a lone surrogate, which
    UTF-8 cannot express. *)
Definition surrogate_world : world :=
  mkWorld (mkGlobals PROGRAM_ID RPC_ENDPOINT [lit "ok"; 55296%N :: lit "bad"])
          [] [].

(** * Proofs *)

(** ** Running the monad: the equations of its operations *)

Section RunEquations.

Context {A B : Type}.

Lemma run_ret (a : A) (w : world) : run (ret a) w = (inr a, w).
Proof. reflexivity. Qed.

Lemma run_bind (m : py A) (f : A -> py B) (w : world) :
  run (bind m f) w =
  match run m w with
  | (inl e, w') => (inl e, w')
  | (inr a, w') => run (f a) w'
  end.
Proof.
  unfold run; simpl.
  destruct (runState (unEitherT m) w) as [[e | a] w']; reflexivity.
Qed.

Lemma run_catch (m : py A) (h : py_exc -> py A) (w : world) :
  run (catch m h) w =
  match run m w with
  | (inl e, w') => run (h e) w'
  | (inr a, w') => (inr a, w')
  end.
Proof.
  unfold run; simpl.
  destruct (runState (unEitherT m) w) as [[e | a] w']; reflexivity.
Qed.

End RunEquations.

Section Primitives.

Variables (g : globals) (so sp : list str).

Lemma run_print (s : str) :
  run (print s) (mkWorld g so sp) = (inr tt, mkWorld g (so ++ [s]) sp).
Proof. reflexivity. Qed.

Lemma run_global {A} (f : globals -> A) :
  run (global f) (mkWorld g so sp) = (inr (f g), mkWorld g so sp).
Proof. reflexivity. Qed.

Lemma run_subprocess_run os cmd :
  run (subprocess_run os cmd) (mkWorld g so sp) =
  (match os (length sp) cmd with
   | Completed p => inr p
   | Raised e => inl e
   end, mkWorld g so (sp ++ [cmd])).
Proof.
  unfold subprocess_run, run; simpl.
  destruct (os (length sp) cmd); reflexivity.
Qed.

Lemma run_run_cmd os cmd :
  run (run_cmd os cmd) (mkWorld g so sp) =
  (inr (triple_of (os (length sp) cmd)), mkWorld g so (sp ++ [cmd])).
Proof.
  unfold run_cmd. rewrite run_catch, run_bind, run_subprocess_run.
  destruct (os (length sp) cmd); reflexivity.
Qed.

End Primitives.

Lemma run_for_each_print {A} (body : A -> py unit) (f : A -> str) (l : list A) g so sp :
  (forall x, body x = print (f x)) ->
  run (for_each l body) (mkWorld g so sp) = (inr tt, mkWorld g (so ++ map f l) sp).
Proof.
  intro Hbody. revert so; induction l as [| x r IH]; intro so; cbn [for_each map].
  - now rewrite run_ret, app_nil_r.
  - rewrite run_bind, Hbody, run_print, IH, <- app_assoc. reflexivity.
Qed.

(** One step of symbolic execution. *)
Ltac run_step :=
  first [ rewrite run_bind | rewrite run_print | rewrite run_global
        | rewrite run_run_cmd | rewrite run_ret ];
  cbv beta iota.

(** ** One run of [main], symbolically *)

(** The two paths of [main], from any world: what is returned, what is
    printed and which commands are spawned. *)
Lemma run_main os w :
  run (main os) w =
  let g := w_globals w in
  let '(rc, out, err) := triple_of (os (length (w_spawned w)) solana_address) in
  if (rc =? 0)%Z then
    (inr tt, spawn (printed w (banner_of g ++ wallet_line (strip out) :: runbook_of g))
                   [solana_address; keygen_cmd])
  else
    (inr tt, spawn (printed w (banner_of g ++ [error_line err])) [solana_address]).
Proof.
  destruct w as [g so sp]. cbn [w_globals w_spawned].
  unfold main, solana_address, keygen_cmd, printed, spawn.
  cbn [w_globals w_spawned w_stdout]. repeat run_step.
  destruct (triple_of (os (length sp) _)) as [[rc out] err].
  cbv beta iota zeta.
  destruct (rc =? 0)%Z; cbn [negb]; repeat run_step.
  - destruct (triple_of _) as [[rc2 out2] err2]. repeat run_step.
    rewrite (run_for_each_print _ entry_line) by (intros [i v]; reflexivity).
    repeat run_step.
    unfold runbook_of, banner_of, wallet_line, next_steps.
    repeat rewrite <- app_assoc. reflexivity.
  - unfold banner_of, error_line.
    repeat rewrite <- app_assoc. reflexivity.
Qed.

(** ** Runs from the initial world *)

Lemma banner_of_module : banner_of module_globals = banner.
Proof. vm_compute. reflexivity. Qed.

Lemma runbook_of_module : runbook_of module_globals = runbook.
Proof. vm_compute. reflexivity. Qed.

Lemma wallet_call_eq os : wallet_call os = inr (triple_of (os 0%nat solana_address)).
Proof. unfold wallet_call, initial_world. now rewrite run_run_cmd. Qed.

Lemma run_main_success os out err :
  wallet_call os = inr (0%Z, out, err) ->
  run (main os) initial_world =
  (inr tt, mkWorld module_globals (banner ++ wallet_line (strip out) :: runbook)
                   [solana_address; keygen_cmd]).
Proof.
  rewrite wallet_call_eq. intro H. injection H as H.
  rewrite run_main. cbn [initial_world w_spawned w_globals length].
  rewrite H. cbv zeta beta iota.
  change (0 =? 0)%Z with true. cbv iota.
  now rewrite banner_of_module, runbook_of_module.
Qed.

Lemma run_main_failure os rc out err :
  wallet_call os = inr (rc, out, err) -> rc <> 0%Z ->
  run (main os) initial_world =
  (inr tt, mkWorld module_globals (banner ++ [error_line err]) [solana_address]).
Proof.
  rewrite wallet_call_eq. intros H Hrc. injection H as H.
  rewrite run_main. cbn [initial_world w_spawned w_globals length].
  rewrite H. cbv zeta beta iota.
  destruct (Z.eqb_spec rc 0) as [E | _]; [contradiction |].
  now rewrite banner_of_module.
Qed.

Lemma wallet_call_in_main os so :
  fst (run (run_cmd os solana_address) (mkWorld module_globals so [])) = wallet_call os.
Proof. rewrite wallet_call_eq. now rewrite run_run_cmd. Qed.

(** The wallet-CLI call always hands back a triple. *)
Lemma wallet_call_returns os : exists rc out err, wallet_call os = inr (rc, out, err).
Proof.
  rewrite wallet_call_eq.
  destruct (triple_of (os 0%nat solana_address)) as [[rc out] err]. eauto.
Qed.

(** ** [strip] removes exactly the surrounding whitespace *)

Lemma lstrip_split s : exists l, s = l ++ lstrip s /\ all_space l.
Proof.
  induction s as [| c r [l [E Hl]]]; simpl.
  - exists []; split; reflexivity.
  - destruct (isspace c) eqn:Hc.
    + exists (c :: l); split.
      * simpl. now rewrite <- E.
      * unfold all_space in *; simpl. now rewrite Hc.
    + exists []; split; reflexivity.
Qed.

Lemma lstrip_clean s : clean_start (lstrip s).
Proof.
  induction s as [| c r IH]; simpl; [exact I |].
  destruct (isspace c) eqn:Hc; [exact IH | exact Hc].
Qed.

Lemma lstrip_id s : clean_start s -> lstrip s = s.
Proof. destruct s as [| c r]; simpl; [reflexivity |]. now intros ->. Qed.

Lemma lstrip_app_space l s : all_space l -> lstrip (l ++ s) = lstrip s.
Proof.
  unfold all_space. induction l as [| c r IH]; simpl; [reflexivity |].
  intro H. apply andb_true_iff in H as [Hc Hr]. rewrite Hc. now apply IH.
Qed.

Lemma lstrip_all_space l : all_space l -> lstrip l = [].
Proof.
  intro H. rewrite <- (app_nil_r l). now rewrite lstrip_app_space.
Qed.

Lemma all_space_rev l : all_space l -> all_space (rev l).
Proof.
  unfold all_space. rewrite !forallb_forall. intros H x Hx.
  apply H. now apply in_rev.
Qed.

Lemma clean_start_app s t : s <> [] -> clean_start (s ++ t) -> clean_start s.
Proof. destruct s; [congruence | simpl; auto]. Qed.

Lemma strip_split s :
  exists lead trail,
    s = lead ++ strip s ++ trail /\ all_space lead /\ all_space trail
    /\ clean_edges (strip s).
Proof.
  destruct (lstrip_split s) as [lead [E Hlead]].
  destruct (lstrip_split (rev (lstrip s))) as [t [Et Ht]].
  exists lead, (rev t). unfold strip, rstrip.
  assert (Hmid : lstrip s = rev (lstrip (rev (lstrip s))) ++ rev t).
  { rewrite <- rev_app_distr, <- Et. now rewrite rev_involutive. }
  repeat split.
  - now rewrite <- Hmid.
  - exact Hlead.
  - now apply all_space_rev.
  - destruct (rev (lstrip (rev (lstrip s)))) as [| c r] eqn:Hu; [exact I |].
    pose proof (lstrip_clean s) as Hc. rewrite Hmid in Hc. exact Hc.
  - rewrite rev_involutive. apply lstrip_clean.
Qed.

Lemma strip_unique lead core trail :
  all_space lead -> all_space trail -> clean_edges core ->
  strip (lead ++ core ++ trail) = core.
Proof.
  intros Hl Ht [Hs He]. unfold strip, rstrip.
  rewrite lstrip_app_space by exact Hl.
  destruct core as [| c r].
  - simpl. rewrite (lstrip_all_space trail Ht). reflexivity.
  - rewrite (lstrip_id ((c :: r) ++ trail)) by exact Hs.
    rewrite rev_app_distr, lstrip_app_space by now apply all_space_rev.
    rewrite (lstrip_id _ He). apply rev_involutive.
Qed.


(** ** The configuration is only read *)

Section Frame.

Context {A B : Type}.

Lemma keeps_ret (a : A) : keeps_globals (ret a : py A).
Proof. intro w. reflexivity. Qed.

Lemma keeps_bind (m : py A) (f : A -> py B) :
  keeps_globals m -> (forall a, keeps_globals (f a)) -> keeps_globals (bind m f).
Proof.
  intros Hm Hf w. rewrite run_bind. specialize (Hm w).
  destruct (run m w) as [[e | a] w']; simpl in *; [exact Hm |].
  now rewrite Hf.
Qed.

Lemma keeps_catch (m : py A) (h : py_exc -> py A) :
  keeps_globals m -> (forall e, keeps_globals (h e)) -> keeps_globals (catch m h).
Proof.
  intros Hm Hh w. rewrite run_catch. specialize (Hm w).
  destruct (run m w) as [[e | a] w']; simpl in *; [| exact Hm].
  now rewrite Hh.
Qed.

End Frame.

Lemma keeps_print s : keeps_globals (print s).
Proof. intros [g so sp]. now rewrite run_print. Qed.

Lemma keeps_global {A} (f : globals -> A) : keeps_globals (global f).
Proof. intros [g so sp]. now rewrite run_global. Qed.

Lemma keeps_subprocess_run os cmd : keeps_globals (subprocess_run os cmd).
Proof. intros [g so sp]. now rewrite run_subprocess_run. Qed.

Lemma keeps_for_each {A} (l : list A) (body : A -> py unit) :
  (forall x, keeps_globals (body x)) -> keeps_globals (for_each l body).
Proof.
  intro Hb. induction l as [| x r IH]; cbn [for_each].
  - apply keeps_ret.
  - apply keeps_bind; [apply Hb | intros _; exact IH].
Qed.

Lemma keeps_run_cmd os cmd : keeps_globals (run_cmd os cmd).
Proof.
  unfold run_cmd. apply keeps_catch.
  - apply keeps_bind; [apply keeps_subprocess_run | intro p; apply keeps_ret].
  - intro e. apply keeps_ret.
Qed.

Ltac keeps :=
  repeat lazymatch goal with
  | |- keeps_globals (print _) => apply keeps_print
  | |- keeps_globals (global _) => apply keeps_global
  | |- keeps_globals (run_cmd _ _) => apply keeps_run_cmd
  | |- keeps_globals (for_each _ _) => apply keeps_for_each; intros [? ?]
  | |- keeps_globals (bind _ _) =>
    apply keeps_bind; [| first [intros [[? ?] ?] | intro] ]
  | |- keeps_globals (if ?b then _ else _) => destruct b
  end.

Lemma keeps_main os : keeps_globals (main os).
Proof. unfold main. keeps. Qed.

(** ** Reading back what [json.dumps] wrote *)

Section RoundTrip.

Import Json JsonReader.

Lemma plain_char_facts c :
  plain_char c = true ->
  (c =? 34)%N = false /\ (c =? 92)%N = false /\ (c <? 32)%N = false
  /\ encode_char c = [c].
Proof.
  unfold plain_char, encode_char. intro H.
  apply andb_true_iff in H as [H H92]. apply andb_true_iff in H as [H H34].
  apply negb_true_iff in H92, H34. rewrite H34, H92.
  pose proof H as Hr. apply andb_true_iff in H as [Hlo Hhi].
  apply N.leb_le in Hlo, Hhi.
  repeat split; auto.
  - apply N.ltb_ge. exact Hlo.
  - assert (E : forall k, (k < 32)%N -> (c =? k)%N = false)
      by (intros k Hk; apply N.eqb_neq; lia).
    rewrite !E by lia. now rewrite Hr.
Qed.

Lemma encode_plain s : plain s -> flat_map encode_char s = s.
Proof.
  unfold plain. induction s as [| c r IH]; simpl; [reflexivity |].
  intro H. apply andb_true_iff in H as [Hc Hr].
  destruct (plain_char_facts c Hc) as (_ & _ & _ & ->). simpl. now rewrite IH.
Qed.

Lemma string_body_plain s rest fuel :
  plain s -> (length s < fuel)%nat ->
  string_body fuel (s ++ 34%N :: rest) = Some (s, rest).
Proof.
  unfold plain. revert fuel. induction s as [| c r IH]; intros fuel H Hf.
  - destruct fuel; [inversion Hf | reflexivity].
  - destruct fuel; [inversion Hf |].
    simpl in H. apply andb_true_iff in H as [Hc Hr].
    destruct (plain_char_facts c Hc) as (H34 & H92 & H32 & _).
    cbn [app string_body]. rewrite H34, H92, H32.
    rewrite IH by (auto; simpl in Hf; lia). reflexivity.
Qed.

Lemma string_token_plain s rest :
  plain s -> string_token (encode_basestring_ascii s ++ rest) = Some (s, rest).
Proof.
  intro H. unfold encode_basestring_ascii. rewrite (encode_plain s H).
  cbn [app string_token]. rewrite <- app_assoc. cbn [app].
  apply string_body_plain; [exact H |].
  rewrite length_app. simpl. lia.
Qed.

Lemma skip_ws_spaces n x : skip_ws (repeat 32%N n ++ 34%N :: x) = 34%N :: x.
Proof. induction n as [| n IH]; [reflexivity | exact IH]. Qed.

Lemma skip_ws_indent n x : skip_ws (nl ++ repeat 32%N n ++ 34%N :: x) = 34%N :: x.
Proof. exact (skip_ws_spaces n x). Qed.

Lemma encode_head s : exists t, encode_basestring_ascii s = 34%N :: t.
Proof. unfold encode_basestring_ascii. simpl. eauto. Qed.

Lemma join_head sep l :
  l <> [] -> exists t, join sep (map encode_basestring_ascii l) = 34%N :: t.
Proof.
  destruct l as [| x [| y r]]; [congruence | |]; intros _; cbn [map join];
    destruct (encode_head x) as [t ->]; simpl; eauto.
Qed.

Lemma join_cons2 sep (x y : str) r :
  join sep (x :: y :: r) = x ++ sep ++ join sep (y :: r).
Proof. reflexivity. Qed.

Lemma items_plain n l fuel :
  l <> [] -> Forall plain l -> (length l <= fuel)%nat ->
  items fuel
    (join ([44%N] ++ nl ++ repeat 32%N n) (map encode_basestring_ascii l)
     ++ nl ++ [93%N])
  = Some (l, []).
Proof.
  revert fuel. induction l as [| x r IH]; [congruence |].
  intros fuel _ Hp Hf. inversion Hp as [| ? ? Hx Hr]; subst.
  destruct fuel as [| f]; [simpl in Hf; lia |].
  destruct r as [| y r].
  - cbn [map join items]. rewrite (string_token_plain x _ Hx). reflexivity.
  - assert (Hne : y :: r <> []) by congruence.
    assert (Hlen : (length (y :: r) <= f)%nat) by (simpl in Hf; simpl; lia).
    specialize (IH f Hne Hr Hlen).
    destruct (join_head ([44%N] ++ nl ++ repeat 32%N n) (y :: r) Hne) as [t Et].
    rewrite Et in IH.
    change (map encode_basestring_ascii (x :: y :: r))
      with (encode_basestring_ascii x :: encode_basestring_ascii y
            :: map encode_basestring_ascii r).
    rewrite join_cons2.
    change (encode_basestring_ascii y :: map encode_basestring_ascii r)
      with (map encode_basestring_ascii (y :: r)).
    rewrite Et. cbn [items]. rewrite <- !app_assoc.
    rewrite (string_token_plain x _ Hx).
    cbn [app skip_ws is_ws N.eqb Pos.eqb orb].
    rewrite skip_ws_indent.
    change (34%N :: t ++ nl ++ [93%N]) with ((34%N :: t) ++ nl ++ [93%N]).
    rewrite IH. reflexivity.
Qed.

Lemma length_join_encoded sep l :
  (length l <= length (join sep (map encode_basestring_ascii l)))%nat.
Proof.
  induction l as [| x [| y r] IH]; [simpl; lia | |].
  - cbn [map join]. destruct (encode_head x) as [t ->]. simpl. lia.
  - cbn [map join] in *. destruct (encode_head x) as [t ->].
    rewrite !length_app in *. cbn [length] in *. lia.
Qed.

Lemma loads_shape n t xs :
  items (length (34%N :: t)) (34%N :: t) = Some (xs, []) ->
  loads (91%N :: nl ++ repeat 32%N n ++ 34%N :: t) = Some xs.
Proof.
  intro E. unfold loads.
  change (skip_ws (91%N :: nl ++ repeat 32%N n ++ 34%N :: t))
    with (91%N :: nl ++ repeat 32%N n ++ 34%N :: t).
  cbv beta iota. rewrite skip_ws_indent. cbv beta iota.
  rewrite E. reflexivity.
Qed.

(** Reading back what [json.dumps] writes gives the list again, for every
    indentation and every list of strings of plain printable characters. *)
Lemma loads_dumps_plain l n :
  Forall plain l -> loads (dumps l n) = Some l.
Proof.
  intro Hp. destruct l as [| x r]; [vm_compute; reflexivity |].
  assert (Hne : x :: r <> []) by congruence.
  pose proof (items_plain n (x :: r)) as Hitems.
  pose proof (length_join_encoded ([44%N] ++ nl ++ repeat 32%N n) (x :: r)) as Hlen.
  unfold dumps.
  change (lit "[") with [91%N]. change (lit ",") with [44%N].
  change (lit "]") with [93%N].
  destruct (join_head ([44%N] ++ nl ++ repeat 32%N n) (x :: r) Hne) as [t Et].
  rewrite Et in *.
  replace ([91%N] ++ (nl ++ repeat 32%N n) ++ (34%N :: t) ++ nl ++ [93%N])
    with (91%N :: nl ++ repeat 32%N n ++ 34%N :: (t ++ nl ++ [93%N]))
    by (cbn [app]; now rewrite <- app_assoc).
  apply loads_shape. apply Hitems; [exact Hne | exact Hp |].
  cbn [length] in *. rewrite length_app. lia.
Qed.

End RoundTrip.

(** The validator identifiers are plain strings, so the round trip holds
    for them at every indentation. *)
Lemma validators_plain : Forall plain VALIDATORS.
Proof. repeat constructor. Qed.

(** ** The first character tells the lines apart *)



(** ** The properties of the specification *)



(** C2: [run_cmd] always returns a triple and never lets an exception
    through: when the child process completes it returns its exit code,
    stdout and stderr, whatever the exit code; when [subprocess.run] raises
    it returns 1, the empty string and the description of the exception. *)
Theorem run_cmd_never_raises os cmd w :
  (exists t, fst (run (run_cmd os cmd) w) = inr t)
  /\ match os (length (w_spawned w)) cmd with
     | Completed p =>
       fst (run (run_cmd os cmd) w) = inr (returncode p, stdout p, stderr p)
     | Raised e =>
       fst (run (run_cmd os cmd) w) = inr (1%Z, [], exc_str e)
     end.
Proof.
  destruct w as [g so sp]. rewrite run_run_cmd. cbn [fst w_spawned].
  split; [eauto |].
  destruct (os (length sp) cmd); reflexivity.
Qed.

(** C3: in every run in which the wallet-CLI call succeeds, the last thing
    printed is the JSON block; it is the validator list serialised with
    two-space indentation ([json_lines] joined by newlines), and reading it
    back gives the five validator identifiers in their order. *)
Theorem json_block_round_trip os out err :
  wallet_call os = inr (0%Z, out, err) ->
  exists before,
    output os = before ++ [json_header; json_text]
    /\ json_text = Json.dumps VALIDATORS 2
    /\ json_text = Json.join nl json_lines
    /\ JsonReader.loads json_text = Some VALIDATORS
    /\ length VALIDATORS = 5%nat.
Proof.
  intro Hcall. unfold output.
  rewrite (run_main_success os out err Hcall). cbn [snd w_stdout].
  exists (banner ++ wallet_line (strip out) :: validator_header
                 :: validator_entries ++ next_steps).
  split.
  - unfold runbook. rewrite <- !app_assoc. cbn [app].
    rewrite <- !app_assoc. reflexivity.
  - repeat split; vm_compute; reflexivity.
Qed.

Lemma json_block_round_trip_witness :
  exists before,
    output scenario_a = before ++ [json_header; json_text]
    /\ json_text = Json.dumps VALIDATORS 2
    /\ json_text = Json.join nl json_lines
    /\ JsonReader.loads json_text = Some VALIDATORS
    /\ length VALIDATORS = 5%nat.
Proof.
  apply (json_block_round_trip scenario_a
           (lit "7xKXtg2CW...devnetWallet" ++ nl) []).
  vm_compute. reflexivity.
Defined.



(** C5: when the wallet-CLI call hands back exit code 0 and stdout [W],
    [W] is some leading whitespace, a core without whitespace at either
    end, and some trailing whitespace; and however [W] is split that way,
    the wallet line, the fourth item printed, carries exactly the core. *)
Theorem wallet_line_is_trimmed os W err :
  wallet_call os = inr (0%Z, W, err) ->
  (exists lead core trail,
     W = lead ++ core ++ trail
     /\ all_space lead /\ all_space trail /\ clean_edges core)
  /\ (forall lead core trail,
        W = lead ++ core ++ trail ->
        all_space lead -> all_space trail -> clean_edges core ->
        nth_error (output os) 3 = Some (lit "✅ Wallet: " ++ core ++ nl)).
Proof.
  intro Hcall. split.
  - destruct (strip_split W) as [lead [trail H]]. exists lead, (strip W), trail.
    exact H.
  - intros lead core trail E Hl Ht Hc. unfold output.
    rewrite (run_main_success os W err Hcall). cbn [snd w_stdout].
    rewrite E, (strip_unique lead core trail Hl Ht Hc). reflexivity.
Qed.

Lemma wallet_line_is_trimmed_witness :
  wallet_call scenario_a = inr (0%Z, lit "7xKXtg2CW...devnetWallet" ++ nl, [])
  /\ nth_error (output scenario_a) 3
     = Some (lit "✅ Wallet: " ++ lit "7xKXtg2CW...devnetWallet" ++ nl).
Proof.
  assert (H : wallet_call scenario_a
              = inr (0%Z, lit "7xKXtg2CW...devnetWallet" ++ nl, []))
    by (vm_compute; reflexivity).
  split; [exact H |].
  apply (proj2 (wallet_line_is_trimmed scenario_a _ _ H)
           [] (lit "7xKXtg2CW...devnetWallet") nl).
  - reflexivity.
  - reflexivity.
  - reflexivity.
  - split; vm_compute; reflexivity.
Defined.

(** C6: two runs in which the wallet-CLI call hands back the same triple
    print the same items and end the same way, however the systems answer
    the second call (any exit code, stdout and stderr, or an exception). *)
Theorem second_call_does_not_interfere os1 os2 :
  wallet_call os1 = wallet_call os2 ->
  output os1 = output os2 /\ result os1 = result os2.
Proof.
  intro H. unfold output, result.
  destruct (wallet_call_returns os1) as [rc [out [err H1]]].
  assert (H2 : wallet_call os2 = inr (rc, out, err)) by now rewrite <- H.
  destruct (Z.eq_dec rc 0) as [-> | Hrc].
  - rewrite (run_main_success os1 out err H1), (run_main_success os2 out err H2).
    split; reflexivity.
  - rewrite (run_main_failure os1 rc out err H1 Hrc),
            (run_main_failure os2 rc out err H2 Hrc).
    split; reflexivity.
Qed.

Lemma second_call_does_not_interfere_witness :
  scenario_a 1%nat keygen_cmd <> scenario_a_spawn_error 1%nat keygen_cmd
  /\ output scenario_a = output scenario_a_spawn_error
  /\ result scenario_a = result scenario_a_spawn_error.
Proof.
  split; [discriminate |].
  apply (second_call_does_not_interfere scenario_a scenario_a_spawn_error).
  vm_compute. reflexivity.
Defined.

(** C8: [PROGRAM_ID], [RPC_ENDPOINT] and [VALIDATORS] are never changed:
    [print], reading a global, [subprocess.run], [run_cmd] and [main] leave
    the module-level names as they found them, from any world; at the end
    of a run they still hold the values the module gave them. *)
Theorem configuration_is_never_mutated os :
  (forall s, keeps_globals (print s))
  /\ (forall cmd, keeps_globals (subprocess_run os cmd))
  /\ (forall cmd, keeps_globals (run_cmd os cmd))
  /\ keeps_globals (main os)
  /\ w_globals (snd (run (main os) initial_world))
     = mkGlobals PROGRAM_ID RPC_ENDPOINT VALIDATORS.
Proof.
  split; [exact keeps_print |].
  split; [exact (keeps_subprocess_run os) |].
  split; [exact (keeps_run_cmd os) |].
  split; [exact (keeps_main os) |].
  now rewrite keeps_main.
Qed.



(** C10: when the wallet-CLI call hands back a non-zero exit code, the run
    has handed exactly one command to [subprocess.run], the wallet command;
    the key-derivation command is not among the commands spawned. *)
Theorem failed_run_spawns_once os rc out err :
  wallet_call os = inr (rc, out, err) -> rc <> 0%Z ->
  spawned os = [solana_address]
  /\ length (spawned os) = 1%nat
  /\ ~ In keygen_cmd (spawned os).
Proof.
  intros Hcall Hrc. unfold spawned.
  rewrite (run_main_failure os rc out err Hcall Hrc). cbn [snd w_spawned].
  split; [reflexivity |]. split; [reflexivity |].
  intros [E | []]. vm_compute in E. discriminate E.
Qed.

Lemma failed_run_spawns_once_witness :
  spawned scenario_c = [solana_address]
  /\ length (spawned scenario_c) = 1%nat
  /\ ~ In keygen_cmd (spawned scenario_c).
Proof.
  apply (failed_run_spawns_once scenario_c 1 []
           (lit "[Errno 11] Resource temporarily unavailable")).
  - vm_compute. reflexivity.
  - discriminate.
Defined.

(** ** The scenarios of the specification, run *)

(** A run in which the wallet is found spawns both commands. *)
Lemma successful_run_spawns_twice os out err :
  wallet_call os = inr (0%Z, out, err) ->
  spawned os = [solana_address; keygen_cmd].
Proof.
  intro Hcall. unfold spawned. now rewrite (run_main_success os out err Hcall).
Qed.

Example scenario_a_output :
  output scenario_a =
  banner ++ [lit "✅ Wallet: 7xKXtg2CW...devnetWallet" ++ nl] ++ runbook.
Proof. vm_compute. reflexivity. Qed.

Example scenario_b_text :
  stdout_text (snd (run (main scenario_b) initial_world)) =
  lit "🚀 SolSafe Devnet Initialization" ++ nl
  ++ lit "Program ID: FfV3AHU6WS7aPz53DnVvWBMEZR46ydGkEtKpLiKfRTrR" ++ nl
  ++ lit "RPC: https://api.devnet.solana.com" ++ nl ++ nl
  ++ lit "❌ Failed to get wallet: command not found" ++ nl.
Proof. vm_compute. reflexivity. Qed.

Example scenario_c_call :
  wallet_call scenario_c
  = inr (1%Z, [], lit "[Errno 11] Resource temporarily unavailable").
Proof. vm_compute. reflexivity. Qed.

Example scenario_c_output :
  output scenario_c =
  banner ++ [error_line (lit "[Errno 11] Resource temporarily unavailable")].
Proof. vm_compute. reflexivity. Qed.

(** * Further properties of the code *)

(** ** [run_cmd] and [main] from any world, when nothing is refused *)

Lemma enumerate_nth {A} (l : list A) (start : Z) (k : nat) (x : A) :
  nth_error l k = Some x ->
  nth_error (enumerate l start) k = Some ((start + Z.of_nat k)%Z, x).
Proof.
  revert start k. induction l as [| y r IH]; intros start k H.
  - destruct k; discriminate H.
  - destruct k as [| k].
    + injection H as ->. cbn [enumerate nth_error]. now rewrite Z.add_0_r.
    + cbn [enumerate nth_error] in *. rewrite (IH (start + 1)%Z k H).
      do 2 f_equal. lia.
Qed.

Lemma length_enumerate {A} (l : list A) (start : Z) :
  length (enumerate l start) = length l.
Proof.
  revert start. induction l as [| y r IH]; intro start; [reflexivity |].
  cbn [enumerate length]. now rewrite IH.
Qed.

(** X1: [run_cmd] prints nothing and leaves the configuration alone; it
    records exactly one spawn, the command it was given, also when
    [subprocess.run] raises. *)
Theorem run_cmd_only_spawns os cmd w :
  snd (run (run_cmd os cmd) w)
  = mkWorld (w_globals w) (w_stdout w) (w_spawned w ++ [cmd]).
Proof. destruct w as [g so sp]. now rewrite run_run_cmd. Qed.

(** X4: [main] cannot tell a [subprocess.run] that raised from a child
    that exited with status 1, printed nothing and wrote the exception's
    description to stderr: the two runs are equal in what they return,
    print and spawn. *)
Theorem spawn_failure_is_exit_1 os1 os2 w e :
  os1 (length (w_spawned w)) solana_address = Raised e ->
  os2 (length (w_spawned w)) solana_address
    = Completed (mkCompleted 1 [] (exc_str e)) ->
  run (main os1) w = run (main os2) w.
Proof.
  intros H1 H2. rewrite !run_main. cbv zeta. now rewrite H1, H2.
Qed.

Lemma spawn_failure_is_exit_1_witness :
  run (main scenario_c) initial_world = run (main scenario_c_as_exit) initial_world.
Proof.
  refine (spawn_failure_is_exit_1 scenario_c scenario_c_as_exit initial_world
            (mkExc (lit "[Errno 11] Resource temporarily unavailable")) _ _);
    vm_compute; reflexivity.
Defined.

(** In the run in which nothing is refused, when the wallet call gave exit
    code 0 the validator with index [k] in [VALIDATORS] is printed as the
    item [5 + k] places after the earlier output, and the item after the
    last validator is the next-steps header. *)
Lemma entries_follow_configuration os w out err k v :
  triple_of (os (length (w_spawned w)) solana_address) = (0%Z, out, err) ->
  nth_error (g_VALIDATORS (w_globals w)) k = Some v ->
  let printed_items := w_stdout (snd (run (main os) w)) in
  nth_error printed_items (length (w_stdout w) + 5 + k)
    = Some (lit "  " ++ str_of_int (Z.of_nat k + 1) ++ lit ". " ++ v)
  /\ nth_error printed_items
       (length (w_stdout w) + 5 + length (g_VALIDATORS (w_globals w)))
     = Some (nl ++ lit "⏳ Next Steps:").
Proof.
  intros Hcall Hk. cbv zeta. rewrite run_main. cbv zeta. rewrite Hcall.
  change (0 =? 0)%Z with true. cbv iota. cbn [snd spawn printed w_stdout].
  set (g := w_globals w) in *. set (so := w_stdout w).
  assert (Hlen : length (banner_of g) = 3%nat) by reflexivity.
  unfold runbook_of.
  replace (so ++ banner_of g ++ wallet_line (strip out)
             :: lit "📋 Validator List:"
             :: map entry_line (enumerate (g_VALIDATORS g) 1)
             ++ next_steps
             ++ [nl ++ lit "📝 Validator list JSON:"; Json.dumps (g_VALIDATORS g) 2])
    with ((so ++ banner_of g ++ [wallet_line (strip out); lit "📋 Validator List:"])
          ++ map entry_line (enumerate (g_VALIDATORS g) 1)
          ++ next_steps
          ++ [nl ++ lit "📝 Validator list JSON:"; Json.dumps (g_VALIDATORS g) 2])
    by (rewrite <- !app_assoc; reflexivity).
  assert (Hpre : length (so ++ banner_of g
                         ++ [wallet_line (strip out); lit "📋 Validator List:"])
                 = (length so + 5)%nat)
    by (rewrite !length_app, Hlen; cbn [length]; lia).
  split.
  - rewrite nth_error_app2 by (rewrite Hpre; lia). rewrite Hpre.
    replace (length so + 5 + k - (length so + 5))%nat with k by lia.
    rewrite nth_error_app1
      by (rewrite length_map, length_enumerate; apply nth_error_Some; congruence).
    rewrite nth_error_map, (enumerate_nth _ 1%Z k v Hk). cbn [option_map].
    unfold entry_line. cbn [fst snd].
    replace (1 + Z.of_nat k)%Z with (Z.of_nat k + 1)%Z by lia. reflexivity.
  - rewrite nth_error_app2 by (rewrite Hpre; lia). rewrite Hpre.
    replace (length so + 5 + length (g_VALIDATORS g) - (length so + 5))%nat
      with (length (g_VALIDATORS g)) by lia.
    rewrite nth_error_app2 by (rewrite length_map, length_enumerate; lia).
    rewrite length_map, length_enumerate, Nat.sub_diag. reflexivity.
Qed.

(** ** [json.dumps] writes ASCII only *)

Section Ascii.

Import Json.

Lemma land_15 x : (N.land x 15 < 16)%N.
Proof.
  change 15%N with (N.ones 4). rewrite N.land_ones.
  apply N.mod_lt. discriminate.
Qed.

Lemma hex_digit_printable d : (d < 16)%N -> printable (hex_digit d) = true.
Proof.
  intro H. unfold printable, hex_digit.
  destruct (N.ltb_spec d 10); apply andb_true_iff; split; apply N.leb_le; lia.
Qed.

Lemma u_escape_printable n : forallb printable (u_escape n) = true.
Proof.
  unfold u_escape. cbn [app forallb].
  rewrite !hex_digit_printable by apply land_15. reflexivity.
Qed.

Lemma encode_char_printable c : forallb printable (encode_char c) = true.
Proof.
  unfold encode_char.
  repeat match goal with
         | |- context [if (c =? ?k)%N then _ else _] =>
           destruct (c =? k)%N; [reflexivity |]
         end.
  destruct ((32 <=? c)%N && (c <=? 126)%N) eqn:E.
  - cbn [forallb]. unfold printable. now rewrite E.
  - destruct (c <? 65536)%N; [apply u_escape_printable |].
    cbv zeta. rewrite forallb_app, !u_escape_printable. reflexivity.
Qed.

Lemma encode_printable s : forallb printable (encode_basestring_ascii s) = true.
Proof.
  unfold encode_basestring_ascii. rewrite !forallb_app. cbn [forallb].
  replace (forallb printable (flat_map encode_char s)) with true; [reflexivity |].
  symmetry. induction s as [| c r IH]; [reflexivity |].
  cbn [flat_map]. now rewrite forallb_app, encode_char_printable, IH.
Qed.

Lemma printable_json_char s : forallb printable s = true -> forallb json_char s = true.
Proof.
  rewrite !forallb_forall. intros H c Hc. unfold json_char.
  rewrite (H c Hc). apply orb_true_r.
Qed.

Lemma join_json_char sep l :
  forallb json_char sep = true ->
  forallb json_char (join sep (map encode_basestring_ascii l)) = true.
Proof.
  intro Hsep. induction l as [| x [| y r] IH]; [reflexivity | |].
  - cbn [map join]. apply printable_json_char, encode_printable.
  - change (map encode_basestring_ascii (x :: y :: r))
      with (encode_basestring_ascii x :: map encode_basestring_ascii (y :: r)).
    change (map encode_basestring_ascii (y :: r))
      with (encode_basestring_ascii y :: map encode_basestring_ascii r) at 1.
    cbn [join]. rewrite !forallb_app, Hsep.
    rewrite (printable_json_char _ (encode_printable x)).
    exact IH.
Qed.

Lemma spaces_json_char n : forallb json_char (repeat 32%N n) = true.
Proof. induction n as [| n IH]; [reflexivity | exact IH]. Qed.

End Ascii.

(** X6: whatever strings are serialised (any code points, control
    characters included) and whatever the indentation, every character
    [json.dumps] writes is a newline or printable ASCII. *)
Theorem dumps_is_ascii l n : forallb json_char (Json.dumps l n) = true.
Proof.
  unfold Json.dumps. destruct l as [| x r]; [reflexivity |].
  cbv zeta. change (lit "[") with [91%N]. change (lit ",") with [44%N].
  change (lit "]") with [93%N].
  rewrite !forallb_app. rewrite spaces_json_char.
  rewrite join_json_char; [reflexivity |].
  rewrite !forallb_app, spaces_json_char. reflexivity.
Qed.

(** ** The round trip for every well-formed string *)

(** Linear arithmetic with division by constants. *)
Ltac div_lia := zify; Z.to_euclidean_division_equations; lia.

Section Escapes.

Import Json JsonReader.

Lemma hex_value_digit d : (d < 16)%N -> hex_value (hex_digit d) = Some d.
Proof.
  intro H.
  assert (E : In d [0; 1; 2; 3; 4; 5; 6; 7; 8; 9; 10; 11; 12; 13; 14; 15]%N).
  { assert (Hn : d = N.of_nat (N.to_nat d)) by now rewrite N2Nat.id.
    assert (Hk : (N.to_nat d < 16)%nat) by lia.
    rewrite Hn. clear Hn H. revert Hk. generalize (N.to_nat d). intros k Hk.
    do 16 (destruct k as [| k]; [simpl; tauto |]). lia. }
  simpl in E. repeat (destruct E as [<- | E]; [reflexivity |]). contradiction.
Qed.

Lemma nibbles n :
  (n < 65536)%N ->
  (N.land (N.shiftr n 12) 15 * 4096 + N.land (N.shiftr n 8) 15 * 256
   + N.land (N.shiftr n 4) 15 * 16 + N.land n 15 = n)%N.
Proof.
  intro H. change 15%N with (N.ones 4). rewrite !N.land_ones, !N.shiftr_div_pow2.
  change (2 ^ 12)%N with 4096%N. change (2 ^ 8)%N with 256%N.
  change (2 ^ 4)%N with 16%N.
  div_lia.
Qed.

(** The four hex digits of [u_escape n] read back as [n]. *)
Lemma hex4_u_escape n T :
  (n < 65536)%N ->
  exists a b c d,
    u_escape n = [92; 117; a; b; c; d]%N
    /\ hex4 (a :: b :: c :: d :: T) = Some (n, T).
Proof.
  intro H. unfold u_escape. do 4 eexists. split; [reflexivity |].
  unfold hex4. rewrite !hex_value_digit by apply land_15.
  now rewrite (nibbles n H).
Qed.

(** Below bit 10 a multiple of 1024 has no bit, so [lor] adds. *)
Lemma lor_high k x : (x < 1024)%N -> N.lor (k * 1024) x = (k * 1024 + x)%N.
Proof.
  intro H.
  assert (E : N.land (k * 1024) x = 0%N).
  { apply N.bits_inj. intro m. rewrite N.land_spec, N.bits_0.
    destruct (N.lt_ge_cases m 10) as [Hm | Hm].
    - change 1024%N with (2 ^ 10)%N. now rewrite N.mul_pow2_bits_low.
    - rewrite andb_false_iff. right.
      destruct (N.eq_0_gt_0_cases x) as [-> | Hx]; [apply N.bits_0 |].
      apply N.bits_above_log2.
      apply N.lt_le_trans with (m := 10%N); [| exact Hm].
      apply N.log2_lt_pow2; [exact Hx | exact H]. }
  now rewrite (N.add_nocarry_lxor _ _ E), (N.lxor_lor _ _ E).
Qed.

(** The surrogate pair [encode_char] writes for a code point beyond the
    BMP: both halves are in range and combine to the code point. *)
Lemma surrogates c :
  (65536 <= c)%N -> (c < 1114112)%N ->
  let v := (c - 65536)%N in
  let hi := N.lor 55296 (N.land (N.shiftr v 10) 1023) in
  let lo := N.lor 56320 (N.land v 1023) in
  (hi < 65536)%N /\ (lo < 65536)%N
  /\ is_high hi = true /\ is_low lo = true
  /\ (65536 + (hi - 55296) * 1024 + (lo - 56320) = c)%N.
Proof.
  intros Hlo Hhi. cbv zeta.
  change 1023%N with (N.ones 10). rewrite !N.land_ones, !N.shiftr_div_pow2.
  change (2 ^ 10)%N with 1024%N.
  assert (B : ((c - 65536) / 1024 < 1024)%N)
    by div_lia.
  assert (B' : ((c - 65536) mod 1024 < 1024)%N) by (apply N.mod_lt; discriminate).
  rewrite (N.mod_small _ _ B).
  change 55296%N with (54 * 1024)%N. change 56320%N with (55 * 1024)%N.
  rewrite (lor_high 54 _ B), (lor_high 55 _ B').
  unfold is_high, is_low.
  change (54 * 1024)%N with 55296%N. change (55 * 1024)%N with 56320%N.
  repeat split;
    try (apply andb_true_iff; split; [apply N.leb_le | apply N.ltb_lt]);
    div_lia.
Qed.

End Escapes.

Section Reading.

Import Json JsonReader.

Lemma body_plain_step c f T :
  (c =? 34)%N = false -> (c =? 92)%N = false -> (c <? 32)%N = false ->
  string_body (S f) (c :: T) = push c (string_body f T).
Proof. intros H1 H2 H3. cbn [string_body]. now rewrite H1, H2, H3. Qed.

Lemma body_short_escape e u f T :
  (e =? 117)%N = false -> unescape e = Some u ->
  string_body (S f) (92%N :: e :: T) = push u (string_body f T).
Proof.
  intros H1 H2. cbn [string_body].
  change (92 =? 34)%N with false. change (92 =? 92)%N with true. cbv iota.
  now rewrite H1, H2.
Qed.

(** After a [\uXXXX] that is no high surrogate the reader goes on with the
    next character, whatever follows. *)
Lemma body_u_single a b c d n f T :
  hex4 (a :: b :: c :: d :: T) = Some (n, T) -> is_high n = false ->
  string_body (S f) (92%N :: 117%N :: a :: b :: c :: d :: T)
  = push n (string_body f T).
Proof.
  intros H Hn. cbn [string_body].
  change (92 =? 34)%N with false. change (92 =? 92)%N with true.
  change (117 =? 117)%N with true. cbv iota.
  rewrite H, Hn. cbn [andb].
  destruct T as [| x T]; [reflexivity |].
  destruct x as [| p]; [reflexivity |].
  do 7 (destruct p as [p | p |]; try reflexivity).
  destruct T as [| y T]; [reflexivity |].
  destruct y as [| p]; [reflexivity |].
  do 7 (destruct p as [p | p |]; try reflexivity).
  destruct (hex4 T) as [[lo r4] |]; reflexivity.
Qed.

Lemma body_u_pair a b c d a' b' c' d' hi lo f T :
  hex4 (a :: b :: c :: d :: 92%N :: 117%N :: a' :: b' :: c' :: d' :: T)
    = Some (hi, 92%N :: 117%N :: a' :: b' :: c' :: d' :: T) ->
  hex4 (a' :: b' :: c' :: d' :: T) = Some (lo, T) ->
  is_high hi = true -> is_low lo = true ->
  string_body (S f)
    (92%N :: 117%N :: a :: b :: c :: d
     :: 92%N :: 117%N :: a' :: b' :: c' :: d' :: T)
  = push (65536 + (hi - 55296) * 1024 + (lo - 56320))%N (string_body f T).
Proof.
  intros H H' Hhi Hlo. cbn [string_body].
  change (92 =? 34)%N with false. change (92 =? 92)%N with true.
  change (117 =? 117)%N with true. cbv iota.
  rewrite H. cbv iota. rewrite H', Hhi, Hlo. reflexivity.
Qed.

Lemma scalar_facts c :
  scalar c = true ->
  (c < 1114112)%N /\ is_high c = false /\ ((c < 55296)%N \/ (57344 <= c)%N).
Proof.
  unfold scalar, is_high. intro H. apply andb_true_iff in H as [H1 H2].
  apply N.ltb_lt in H1. apply negb_true_iff, andb_false_iff in H2.
  split; [exact H1 |].
  destruct H2 as [H2 | H2].
  - apply N.leb_gt in H2. split; [| left; exact H2].
    apply andb_false_iff. left. apply N.leb_gt. exact H2.
  - apply N.ltb_ge in H2. split; [| right; exact H2].
    apply andb_false_iff. right. apply N.ltb_ge. lia.
Qed.

(** One character: what [encode_char] writes for a scalar value is read
    back as that value, whatever follows. *)
Lemma body_encoded_char c f T :
  scalar c = true ->
  string_body (S f) (encode_char c ++ T) = push c (string_body f T).
Proof.
  intro Hc. destruct (scalar_facts c Hc) as (Hmax & Hhigh & Hsur).
  unfold encode_char.
  destruct (N.eqb_spec c 34) as [-> | H34];
    [now apply body_short_escape |].
  destruct (N.eqb_spec c 92) as [-> | H92];
    [now apply body_short_escape |].
  destruct (N.eqb_spec c 10) as [-> | H10];
    [now apply body_short_escape |].
  destruct (N.eqb_spec c 13) as [-> | H13];
    [now apply body_short_escape |].
  destruct (N.eqb_spec c 9) as [-> | H9];
    [now apply body_short_escape |].
  destruct (N.eqb_spec c 12) as [-> | H12];
    [now apply body_short_escape |].
  destruct (N.eqb_spec c 8) as [-> | H8];
    [now apply body_short_escape |].
  destruct ((32 <=? c)%N && (c <=? 126)%N) eqn:Hp.
  - apply andb_true_iff in Hp as [Hp _]. apply N.leb_le in Hp.
    apply body_plain_step; [now apply N.eqb_neq | now apply N.eqb_neq |].
    now apply N.ltb_ge.
  - destruct (N.ltb_spec c 65536) as [Hb | Hb].
    + destruct (hex4_u_escape c T Hb) as (a & b & x & d & -> & E).
      now apply body_u_single.
    + destruct (surrogates c Hb Hmax) as (B1 & B2 & Hh & Hl & E).
      cbv zeta in *.
      set (hi := N.lor 55296 (N.land (N.shiftr (c - 65536) 10) 1023)) in *.
      set (lo := N.lor 56320 (N.land (c - 65536) 1023)) in *.
      destruct (hex4_u_escape lo T B2) as (a' & b' & c' & d' & -> & E').
      destruct (hex4_u_escape hi (92%N :: 117%N :: a' :: b' :: c' :: d' :: T) B1)
        as (a & b & x & d & -> & Ehi).
      cbn [app]. rewrite (body_u_pair _ _ _ _ _ _ _ _ hi lo f T Ehi E' Hh Hl).
      now rewrite E.
Qed.

Lemma string_body_encoded s rest fuel :
  well_formed s -> (length s < fuel)%nat ->
  string_body fuel (flat_map encode_char s ++ 34%N :: rest) = Some (s, rest).
Proof.
  unfold well_formed. revert fuel. induction s as [| c r IH]; intros fuel H Hf.
  - destruct fuel; [inversion Hf | reflexivity].
  - destruct fuel; [inversion Hf |].
    cbn [forallb] in H. apply andb_true_iff in H as [Hc Hr].
    cbn [flat_map]. rewrite <- app_assoc.
    rewrite (body_encoded_char c fuel _ Hc).
    rewrite IH by (auto; simpl in Hf; lia). reflexivity.
Qed.

Lemma length_encoded s : (length s <= length (flat_map encode_char s))%nat.
Proof.
  induction s as [| c r IH]; [simpl; lia |].
  cbn [flat_map]. rewrite length_app. cbn [length].
  assert (1 <= length (encode_char c))%nat; [| lia].
  unfold encode_char, u_escape.
  repeat match goal with
         | |- context [if ?b then _ else _] => destruct b
         end; cbv zeta; rewrite ?length_app; simpl; lia.
Qed.

Lemma string_token_encoded s rest :
  well_formed s ->
  string_token (encode_basestring_ascii s ++ rest) = Some (s, rest).
Proof.
  intro H. unfold encode_basestring_ascii.
  cbn [app string_token]. rewrite <- app_assoc. cbn [app].
  apply string_body_encoded; [exact H |].
  rewrite length_app. pose proof (length_encoded s). simpl. lia.
Qed.

Lemma items_encoded n l fuel :
  l <> [] -> Forall well_formed l -> (length l <= fuel)%nat ->
  items fuel
    (join ([44%N] ++ nl ++ repeat 32%N n) (map encode_basestring_ascii l)
     ++ nl ++ [93%N])
  = Some (l, []).
Proof.
  revert fuel. induction l as [| x r IH]; [congruence |].
  intros fuel _ Hp Hf. inversion Hp as [| ? ? Hx Hr]; subst.
  destruct fuel as [| f]; [simpl in Hf; lia |].
  destruct r as [| y r].
  - cbn [map join items]. rewrite (string_token_encoded x _ Hx). reflexivity.
  - assert (Hne : y :: r <> []) by congruence.
    assert (Hlen : (length (y :: r) <= f)%nat) by (simpl in Hf; simpl; lia).
    specialize (IH f Hne Hr Hlen).
    destruct (join_head ([44%N] ++ nl ++ repeat 32%N n) (y :: r) Hne) as [t Et].
    rewrite Et in IH.
    change (map encode_basestring_ascii (x :: y :: r))
      with (encode_basestring_ascii x :: encode_basestring_ascii y
            :: map encode_basestring_ascii r).
    rewrite join_cons2.
    change (encode_basestring_ascii y :: map encode_basestring_ascii r)
      with (map encode_basestring_ascii (y :: r)).
    rewrite Et. cbn [items]. rewrite <- !app_assoc.
    rewrite (string_token_encoded x _ Hx).
    cbn [app skip_ws is_ws N.eqb Pos.eqb orb].
    rewrite skip_ws_indent.
    change (34%N :: t ++ nl ++ [93%N]) with ((34%N :: t) ++ nl ++ [93%N]).
    rewrite IH. reflexivity.
Qed.

(** Reading back what [json.dumps] wrote, for any well-formed strings. *)
Lemma loads_dumps_encoded l n :
  Forall well_formed l -> loads (dumps l n) = Some l.
Proof.
  intro Hp. destruct l as [| x r]; [vm_compute; reflexivity |].
  assert (Hne : x :: r <> []) by congruence.
  pose proof (items_encoded n (x :: r)) as Hitems.
  pose proof (length_join_encoded ([44%N] ++ nl ++ repeat 32%N n) (x :: r)) as Hlen.
  unfold dumps.
  change (lit "[") with [91%N]. change (lit ",") with [44%N].
  change (lit "]") with [93%N].
  destruct (join_head ([44%N] ++ nl ++ repeat 32%N n) (x :: r) Hne) as [t Et].
  rewrite Et in *.
  replace ([91%N] ++ (nl ++ repeat 32%N n) ++ (34%N :: t) ++ nl ++ [93%N])
    with (91%N :: nl ++ repeat 32%N n ++ 34%N :: (t ++ nl ++ [93%N]))
    by (cbn [app]; now rewrite <- app_assoc).
  apply loads_shape. apply Hitems; [exact Hne | exact Hp |].
  cbn [length] in *. rewrite length_app. lia.
Qed.

End Reading.

(** Two adjacent lone surrogates are written as two escapes and read back
    as one code point: the well-formedness hypothesis is needed. *)
Example lone_surrogates_are_merged :
  JsonReader.loads (Json.dumps [[55357; 56832]%N] 2) = Some [[128512%N]].
Proof. vm_compute. reflexivity. Qed.

(** X7: whatever the indentation, reading back what [json.dumps] wrote
    for a list of strings gives the same list, in the same order, as long
    as no string contains a surrogate code point; quotes, backslashes,
    control characters and characters beyond ASCII go through the escapes. *)
Theorem json_round_trip l n :
  Forall well_formed l -> JsonReader.loads (Json.dumps l n) = Some l.
Proof. exact (loads_dumps_encoded l n). Qed.

Lemma json_round_trip_witness :
  JsonReader.loads
    (Json.dumps [lit "a b"; [34; 92; 10; 0; 127]%N; lit "bêta 🚀"; []] 4)
  = Some [lit "a b"; [34; 92; 10; 0; 127]%N; lit "bêta 🚀"; []].
Proof.
  refine (json_round_trip
            [lit "a b"; [34; 92; 10; 0; 127]%N; lit "bêta 🚀"; []] 4 _).
  repeat constructor.
Defined.



(** ** What the operator can and cannot see *)




(** X10: when the wallet call gave exit code 0, what [main] returns,
    prints and spawns depends on the captured stdout only through its core:
    whitespace around it and the captured stderr make no difference. *)
Theorem success_ignores_whitespace_and_stderr
        os1 os2 core lead1 trail1 lead2 trail2 err1 err2 :
  all_space lead1 -> all_space trail1 -> all_space lead2 -> all_space trail2 ->
  clean_edges core ->
  wallet_call os1 = inr (0%Z, lead1 ++ core ++ trail1, err1) ->
  wallet_call os2 = inr (0%Z, lead2 ++ core ++ trail2, err2) ->
  run (main os1) initial_world = run (main os2) initial_world.
Proof.
  intros Hl1 Ht1 Hl2 Ht2 Hc H1 H2.
  rewrite (run_main_success os1 _ _ H1), (run_main_success os2 _ _ H2).
  now rewrite (strip_unique lead1 core trail1 Hl1 Ht1 Hc),
              (strip_unique lead2 core trail2 Hl2 Ht2 Hc).
Qed.

(** X11: when the wallet call gave a non-zero exit code, what [main]
    returns, prints and spawns depends only on the captured stderr: neither
    the value of the exit code nor the captured stdout is shown. *)
Theorem failure_shows_only_stderr os1 os2 rc1 rc2 out1 out2 err :
  wallet_call os1 = inr (rc1, out1, err) -> rc1 <> 0%Z ->
  wallet_call os2 = inr (rc2, out2, err) -> rc2 <> 0%Z ->
  run (main os1) initial_world = run (main os2) initial_world.
Proof.
  intros H1 Hr1 H2 Hr2.
  now rewrite (run_main_failure os1 rc1 out1 err H1 Hr1),
              (run_main_failure os2 rc2 out2 err H2 Hr2).
Qed.

Lemma success_ignores_whitespace_and_stderr_witness :
  run (main scenario_a) initial_world = run (main scenario_a_padded) initial_world.
Proof.
  refine (success_ignores_whitespace_and_stderr scenario_a scenario_a_padded
            (lit "7xKXtg2CW...devnetWallet") [] nl (lit "  ") (lit " ")
            [] (lit "warning: config not found") _ _ _ _ _ _ _);
    try (vm_compute; reflexivity).
  split; vm_compute; reflexivity.
Defined.

Lemma failure_shows_only_stderr_witness :
  run (main scenario_b) initial_world = run (main scenario_b_killed) initial_world.
Proof.
  refine (failure_shows_only_stderr scenario_b scenario_b_killed 1 (-9)
            [] (lit "7xKX") (lit "command not found") _ _ _ _);
    try (vm_compute; reflexivity); discriminate.
Defined.

(** * The script on a host *)

(** [main] is [main_with] at the [print] that takes everything. *)
Lemma main_with_print os : main_with os print = main os.
Proof. reflexivity. Qed.

(** ** Worlds that continue one another *)

Lemma grows_refl w : grows w w.
Proof.
  split; [reflexivity |]. split; exists []; now rewrite app_nil_r.
Qed.

Lemma grows_trans w1 w2 w3 : grows w1 w2 -> grows w2 w3 -> grows w1 w3.
Proof.
  intros (G1 & (l1 & S1) & (c1 & P1)) (G2 & (l2 & S2) & (c2 & P2)).
  split; [congruence |]. split.
  - exists (l1 ++ l2). now rewrite S2, S1, app_assoc.
  - exists (c1 ++ c2). now rewrite P2, P1, app_assoc.
Qed.

Lemma stopped_grows con e w1 w2 w3 :
  stopped_at con e w1 w2 -> grows w2 w3 -> stopped_at con e w1 w3.
Proof.
  intros (G1 & (s & rest & S1 & R) & (c1 & P1)) (G2 & (l2 & S2) & (c2 & P2)).
  split; [congruence |]. split.
  - exists s, (rest ++ l2). split; [| exact R].
    now rewrite S2, S1, <- app_assoc.
  - exists (c1 ++ c2). now rewrite P2, P1, app_assoc.
Qed.

Section Growing.

Context {A B : Type}.

Lemma growing_ret (a : A) : growing (ret a : py A).
Proof. intro w. apply grows_refl. Qed.

Lemma growing_bind (m : py A) (f : A -> py B) :
  growing m -> (forall a, growing (f a)) -> growing (bind m f).
Proof.
  intros Hm Hf w. rewrite run_bind. specialize (Hm w).
  destruct (run m w) as [[e | a] w']; cbn [snd] in *; [exact Hm |].
  exact (grows_trans _ _ _ Hm (Hf a w')).
Qed.

End Growing.

Lemma growing_print s : growing (print s).
Proof.
  intros [g so sp]. rewrite run_print. cbn [snd].
  split; [reflexivity |]. split; [now exists [s] | exists []; now rewrite app_nil_r].
Qed.

Lemma run_print_to con s g so sp :
  run (print_to con s) (mkWorld g so sp) =
  match con (length so) s with
  | None => (inr tt, mkWorld g (so ++ [s]) sp)
  | Some e => (inl e, mkWorld g so sp)
  end.
Proof.
  unfold print_to, run; simpl. destruct (con (length so) s); reflexivity.
Qed.

Lemma growing_print_to con s : growing (print_to con s).
Proof.
  intros [g so sp]. rewrite run_print_to.
  destruct (con (length so) s); cbn [snd]; [apply grows_refl |].
  split; [reflexivity |]. split; [now exists [s] | exists []; now rewrite app_nil_r].
Qed.

Lemma growing_global {A} (f : globals -> A) : growing (global f).
Proof. intros [g so sp]. rewrite run_global. apply grows_refl. Qed.

Lemma growing_run_cmd os cmd : growing (run_cmd os cmd).
Proof.
  intros [g so sp]. rewrite run_run_cmd. cbn [snd].
  split; [reflexivity |]. split; [exists []; now rewrite app_nil_r | now exists [cmd]].
Qed.

Lemma growing_for_each {A} (l : list A) (body : A -> py unit) :
  (forall x, growing (body x)) -> growing (for_each l body).
Proof.
  intro Hb. induction l as [| x r IH]; cbn [for_each].
  - apply growing_ret.
  - apply growing_bind; [apply Hb | intros _; exact IH].
Qed.

Ltac grow :=
  repeat lazymatch goal with
  | |- growing (print _) => apply growing_print
  | |- growing (print_to _ _) => apply growing_print_to
  | |- growing (global _) => apply growing_global
  | |- growing (run_cmd _ _) => apply growing_run_cmd
  | |- growing (for_each _ _) => apply growing_for_each; intros [? ?]
  | |- growing (bind _ _) =>
    apply growing_bind; [| first [intros [[? ?] ?] | intro] ]
  | |- growing (if ?b then _ else _) => destruct b
  end.

Lemma growing_main os : growing (main os).
Proof. unfold main. grow. Qed.

Lemma growing_main_with os con : growing (main_with os (print_to con)).
Proof. unfold main_with. grow. Qed.

(** ** Following the run in which nothing is refused *)

Section Following.

Variable con : console.

Lemma follows_bind {A B} (m1 m2 : py A) (f1 f2 : A -> py B) :
  follows con m1 m2 -> (forall a, follows con (f1 a) (f2 a)) ->
  (forall a, growing (f2 a)) ->
  follows con (bind m1 f1) (bind m2 f2).
Proof.
  intros Hm Hf Hg w. rewrite !run_bind. specialize (Hm w).
  destruct (run m1 w) as [[e | a] w1].
  - destruct (run m2 w) as [[e2 | a2] w2]; cbn [snd] in *; [exact Hm |].
    exact (stopped_grows _ _ _ _ _ Hm (Hg a2 w2)).
  - rewrite Hm. exact (Hf a w1).
Qed.

(** A computation that cannot raise follows itself. *)
Lemma follows_same {A} (m : py A) :
  (forall w, exists a, fst (run m w) = inr a) -> follows con m m.
Proof.
  intros H w. destruct (H w) as [a Ha].
  destruct (run m w) as [[e | a'] w1]; [discriminate Ha | reflexivity].
Qed.

Lemma follows_print s : follows con (print_to con s) (print s).
Proof.
  intros [g so sp]. rewrite run_print_to, run_print.
  destruct (con (length so) s) as [e |] eqn:E; [| reflexivity].
  cbn [snd]. split; [reflexivity |]. split.
  - exists s, []. split; [reflexivity | exact E].
  - exists []. now rewrite app_nil_r.
Qed.

Lemma follows_global {A} (f : globals -> A) : follows con (global f) (global f).
Proof.
  apply follows_same. intros [g so sp]. rewrite run_global. cbn [fst]. eauto.
Qed.

Lemma follows_run_cmd os cmd : follows con (run_cmd os cmd) (run_cmd os cmd).
Proof.
  apply follows_same. intros [g so sp]. rewrite run_run_cmd. cbn [fst]. eauto.
Qed.

Lemma follows_ret {A} (a : A) : follows con (ret a : py A) (ret a).
Proof. apply follows_same. intro w. rewrite run_ret. cbn [fst]. eauto. Qed.

Lemma follows_for_each {A} (l : list A) (b1 b2 : A -> py unit) :
  (forall x, follows con (b1 x) (b2 x)) -> (forall x, growing (b2 x)) ->
  follows con (for_each l b1) (for_each l b2).
Proof.
  intros Hb Hg. induction l as [| x r IH]; cbn [for_each].
  - apply follows_ret.
  - apply follows_bind; [apply Hb | intros _; exact IH |].
    intros _. now apply growing_for_each.
Qed.

End Following.

Ltac follow :=
  repeat lazymatch goal with
  | |- follows _ (print_to _ _) (print _) => apply follows_print
  | |- follows _ (global _) (global _) => apply follows_global
  | |- follows _ (run_cmd _ _) (run_cmd _ _) => apply follows_run_cmd
  | |- follows _ (for_each _ _) (for_each _ _) =>
    apply follows_for_each; intros [? ?]
  | |- follows _ (bind _ _) (bind _ _) =>
    apply follows_bind;
    [ | first [intros [[? ?] ?] | intro] | first [intros [[? ?] ?] | intro]; grow ]
  | |- follows _ (if ?b then _ else _) (if ?b then _ else _) => destruct b
  | |- growing _ => grow
  end.

(** On any console, [main] goes as it does when nothing is refused, until
    a write is refused. *)
Lemma main_follows con os : follows con (main_with os (print_to con)) (main os).
Proof. unfold main, main_with. follow. Qed.

(** When the console takes every item of the run in which nothing is
    refused, the run on the console is that run. *)
Lemma nothing_refused con os w :
  (forall k s,
     nth_error (w_stdout (snd (run (main os) w))) k = Some s ->
     (length (w_stdout w) <= k)%nat -> con k s = None) ->
  run (main_with os (print_to con)) w = run (main os) w.
Proof.
  intro Hacc. pose proof (main_follows con os w) as F.
  pose proof (growing_main_with os con w) as G.
  destruct (run (main_with os (print_to con)) w) as [[e | a] w1].
  - exfalso. destruct F as (_ & (s & rest & S & R) & _).
    destruct G as (_ & (l & L) & _). cbn [snd] in L.
    rewrite (Hacc (length (w_stdout w1)) s) in R; [discriminate R | |].
    + rewrite S, nth_error_app2, Nat.sub_diag by lia. reflexivity.
    + rewrite L, length_app. lia.
  - now rewrite F.
Qed.

(** ** The module, top to bottom *)

Lemma run_assign f g so sp :
  run (assign f) (mkWorld g so sp) = (inr tt, mkWorld (f g) so sp).
Proof. reflexivity. Qed.

Lemma run_import_ok h name w :
  h_import h name = None -> run (import_module h name) w = (inr tt, w).
Proof. intro H. unfold import_module. now rewrite H. Qed.

(** With its imports done, the module binds its three names and runs
    [main] from [initial_world]. *)
Lemma script_loaded h :
  Forall (fun m => h_import h m = None) imported_modules ->
  run (script h) unloaded_world
  = run (main_with (h_os h) (print_to (h_stdout h))) initial_world.
Proof.
  intro H. unfold imported_modules in H.
  repeat match type of H with
         | Forall _ (_ :: _) =>
           let H1 := fresh "I" in
           apply Forall_cons_iff in H; destruct H as [H1 H]
         end.
  unfold script, unloaded_world.
  repeat (rewrite run_bind, run_import_ok by assumption; cbv beta iota).
  repeat (rewrite run_bind, run_assign; cbv beta iota).
  cbn [g_PROGRAM_ID g_RPC_ENDPOINT g_VALIDATORS].
  unfold module_tail.
  replace (PyStr.eqb (lit "__main__") (lit "__main__")) with true
    by (vm_compute; reflexivity).
  reflexivity.
Qed.

(** ** The exit status *)

(** C7: the exit status of the script is 0 on every host on which the
    six imports succeed, standard output takes every item the run prints
    and the output can be flushed at exit; the run then prints what [main]
    prints, also when the wallet address cannot be obtained, which only
    the printed text shows. *)
Theorem exit_status_zero_on_accepting_host h :
  Forall (fun m => h_import h m = None) imported_modules ->
  (forall k s, nth_error (output (h_os h)) k = Some s -> h_stdout h k s = None) ->
  h_flush h (output (h_os h)) = true ->
  exit_status h (run_script h) = 0%Z
  /\ w_stdout (snd (run_script h)) = output (h_os h).
Proof.
  intros Himp Hacc Hflush. unfold run_script, exit_status.
  rewrite (script_loaded h Himp).
  rewrite (nothing_refused (h_stdout h) (h_os h) initial_world)
    by (intros k s Hk _; exact (Hacc k s Hk)).
  fold (output (h_os h)). rewrite Hflush. cbn [negb].
  split; [| reflexivity].
  destruct (wallet_call_returns (h_os h)) as [rc [out [err H]]].
  destruct (Z.eq_dec rc 0) as [-> | Hrc].
  - now rewrite (run_main_success (h_os h) out err H).
  - now rewrite (run_main_failure (h_os h) rc out err H Hrc).
Qed.

Lemma exit_status_zero_on_accepting_host_witness :
  exit_status (utf8_host scenario_b) (run_script (utf8_host scenario_b)) = 0%Z
  /\ w_stdout (snd (run_script (utf8_host scenario_b)))
     = output (h_os (utf8_host scenario_b)).
Proof.
  refine (exit_status_zero_on_accepting_host (utf8_host scenario_b) _ _ _).
  - repeat constructor.
  - intros k s H. vm_compute in H.
    do 4 (destruct k as [| k]; [injection H as <-; vm_compute; reflexivity |]).
    destruct k; discriminate H.
  - vm_compute. reflexivity.
Defined.

(** The exit status is not 0 in every run: it is 1 when stdout is ASCII
    (the first item printed starts with an emoji) and when the [solders]
    package is missing, and 120 when the output cannot be flushed. *)
Lemma exit_status_is_not_always_zero :
  exit_status (ascii_host scenario_a) (run_script (ascii_host scenario_a)) = 1%Z
  /\ w_stdout (snd (run_script (ascii_host scenario_a))) = []
  /\ exit_status (host_without_solders scenario_a)
       (run_script (host_without_solders scenario_a)) = 1%Z
  /\ exit_status (full_disk_host scenario_a)
       (run_script (full_disk_host scenario_a)) = 120%Z.
Proof. vm_compute. repeat split. Qed.

(** ** [main] on any console *)

(** In the run in which nothing is refused, the wallet command is spawned
    and, when it gave exit code 0, the key-derivation command. *)
Lemma main_spawns os w :
  let rc := fst (fst (triple_of (os (length (w_spawned w)) solana_address))) in
  let after := w_spawned (snd (run (main os) w)) in
  (rc <> 0%Z /\ after = w_spawned w ++ [solana_address])
  \/ (rc = 0%Z /\ after = w_spawned w ++ [solana_address; keygen_cmd]).
Proof.
  cbv zeta. rewrite run_main. cbv zeta.
  destruct (triple_of (os (length (w_spawned w)) solana_address)) as [[rc out] err].
  cbn [fst]. destruct (Z.eqb_spec rc 0) as [E | E]; [right | left];
    (split; [exact E | reflexivity]).
Qed.

(** X2: on any console, from any world and for any system, the commands
    [main] hands to [subprocess.run] are none (a banner item was refused),
    the wallet command, or the wallet command and then the key-derivation
    command, the latter only when the wallet call gave exit code 0; both
    command lines are constants, nothing the system answered reaches a
    command line. *)
Theorem commands_are_fixed_on_any_console con os w :
  let rc := fst (fst (triple_of (os (length (w_spawned w)) solana_address))) in
  let after := w_spawned (snd (run (main_with os (print_to con)) w)) in
  after = w_spawned w
  \/ after = w_spawned w ++ [solana_address]
  \/ (rc = 0%Z /\ after = w_spawned w ++ [solana_address; keygen_cmd]).
Proof.
  cbv zeta. pose proof (main_follows con os w) as F.
  pose proof (growing_main_with os con w) as (_ & _ & (l & L)).
  pose proof (main_spawns os w) as T. cbv zeta in T.
  destruct (run (main_with os (print_to con)) w) as [[e | a] w1]; cbn [snd] in *.
  - destruct F as (_ & _ & (c & C)). rewrite L in *.
    destruct T as [[_ T] | [Hrc T]]; rewrite T, <- app_assoc in C;
      apply app_inv_head in C.
    + destruct l as [| x [| y l]]; [left; now rewrite app_nil_r | |
        discriminate C].
      injection C as <- _. right; left; reflexivity.
    + destruct l as [| x [| y [| z l]]].
      * left. now rewrite app_nil_r.
      * injection C as <- _. right; left; reflexivity.
      * injection C as <- <- _. right; right. split; [exact Hrc | reflexivity].
      * discriminate C.
  - rewrite F in T. cbn [snd] in T.
    destruct T as [[_ T] | [Hrc T]]; [right; left; exact T |].
    right; right. split; [exact Hrc | exact T].
Qed.

(** X3: on any console, from any world and for any system, [main] keeps
    what was printed before and adds, in order, an initial segment of
    what it prints when nothing is refused: all of it when it returns; when
    it raises, the exception is the one standard output raised on the next
    item. *)
Theorem printed_is_an_initial_segment con os w :
  let strict := run (main_with os (print_to con)) w in
  let full := w_stdout (snd (run (main os) w)) in
  initial_segment (w_stdout w) (w_stdout (snd strict))
  /\ initial_segment (w_stdout (snd strict)) full
  /\ (fst strict = inr tt -> w_stdout (snd strict) = full)
  /\ (forall e, fst strict = inl e ->
        exists s,
          nth_error full (length (w_stdout (snd strict))) = Some s
          /\ con (length (w_stdout (snd strict))) s = Some e).
Proof.
  cbv zeta. pose proof (main_follows con os w) as F.
  pose proof (growing_main_with os con w) as (_ & (l & L) & _).
  destruct (run (main_with os (print_to con)) w) as [[e | a] w1]; cbn [fst snd] in *.
  - destruct F as (_ & (s & rest & S & R) & _).
    split; [now exists l |]. split; [now exists (s :: rest) |].
    split; [discriminate |].
    intros e' E. injection E as <-. exists s. split; [| exact R].
    rewrite S, nth_error_app2, Nat.sub_diag by lia. reflexivity.
  - rewrite F. cbn [snd].
    split; [now exists l |]. split; [exists []; now rewrite app_nil_r |].
    split; [reflexivity | discriminate].
Qed.

(** X5: on any console, whatever the configuration and the earlier
    output, when the wallet call gave exit code 0 an item printed [5 + k]
    places after the earlier output can only be the entry of the validator
    with index [k] in [VALIDATORS]: two spaces, [k + 1] in decimal, a dot, a
    space and the identifier; and it is printed whenever [main] returns. *)
Theorem entries_on_any_console con os w out err k v :
  triple_of (os (length (w_spawned w)) solana_address) = (0%Z, out, err) ->
  nth_error (g_VALIDATORS (w_globals w)) k = Some v ->
  let strict := run (main_with os (print_to con)) w in
  let entry := lit "  " ++ str_of_int (Z.of_nat k + 1) ++ lit ". " ++ v in
  (forall item,
     nth_error (w_stdout (snd strict)) (length (w_stdout w) + 5 + k) = Some item ->
     item = entry)
  /\ (fst strict = inr tt ->
      nth_error (w_stdout (snd strict)) (length (w_stdout w) + 5 + k) = Some entry).
Proof.
  intros Hcall Hk. cbv zeta.
  destruct (entries_follow_configuration os w out err k v Hcall Hk) as [Hfull _].
  cbv zeta in Hfull.
  pose proof (main_follows con os w) as F.
  destruct (run (main_with os (print_to con)) w) as [[e | a] w1]; cbn [fst snd] in *.
  - split; [| discriminate].
    destruct F as (_ & (s & rest & S & _) & _).
    intros item Hitem. rewrite S in Hfull.
    rewrite nth_error_app1 in Hfull
      by (apply nth_error_Some; congruence).
    congruence.
  - rewrite F in Hfull. cbn [snd] in Hfull. split.
    + intros item Hitem. congruence.
    + intros _. exact Hfull.
Qed.

Lemma entries_on_any_console_witness :
  nth_error
    (w_stdout (snd (run (main_with scenario_later (print_to utf8_console))
                        other_world)))
    (length (w_stdout other_world) + 5 + 1)
  = Some (lit "  " ++ str_of_int (Z.of_nat 1 + 1) ++ lit ". " ++ lit "bêta").
Proof.
  refine (proj2 (entries_on_any_console utf8_console scenario_later other_world
                   (lit " W1 ") [] 1 (lit "bêta") _ _) _);
    vm_compute; reflexivity.
Defined.

(** With a lone surrogate in the second validator, a UTF-8 standard
    output raises at its entry: the run stops after the first entry and
    the script exits with status 1. *)
Example surrogate_entry_stops_the_run :
  let strict := run (main_with scenario_a (print_to utf8_console)) surrogate_world in
  fst strict = inl (mkExc (lit "UnicodeEncodeError"))
  /\ w_stdout (snd strict)
     = banner ++ [ lit "✅ Wallet: 7xKXtg2CW...devnetWallet" ++ nl;
                   lit "📋 Validator List:"; lit "  1. ok" ]
  /\ w_spawned (snd strict) = [solana_address; keygen_cmd].
Proof. vm_compute. repeat split. Qed.

(** On an ASCII standard output nothing is printed and nothing is
    spawned: the first banner item is refused. *)
Example ascii_stdout_stops_at_the_banner :
  let strict := run (main_with scenario_a (print_to ascii_console)) initial_world in
  fst strict = inl (mkExc (lit "UnicodeEncodeError"))
  /\ w_stdout (snd strict) = [] /\ w_spawned (snd strict) = [].
Proof. vm_compute. repeat split. Qed.
